(** * The OCR pipeline API service (ocr-pipeline/api-service/main.py)

    A shallow embedding of the document classifier, the context truncation,
    the extraction of JSON from the model's answer, the aggregation of the
    streamed answer and the conversion to DriftMoney records, with the
    properties the specification states about them.

    Text is a [string]: a sequence of 8-bit characters, read as the code
    points below 256.  Python integers are [Z], Python floats are the
    binary64 values of [SpecFloat], dictionaries are [gmap]s keyed by
    strings. *)

From Stdlib Require Import ZArith String Ascii List SpecFloat Bool Lia.
From stdpp Require Import gmap strings list fin_maps pretty.

#[local] Set Warnings "-register-all".
#[local] Open Scope Z_scope.

(** ** Text: the string operations of Python the service uses *)

Module Text.

(** [len(s)] *)
Definition len (s : string) : Z := Z.of_nat (String.length s).

(** The line feed, ['\n']. *)
Definition nl : ascii := "010"%char.

(** [str.lower] on one code point below 256: the ASCII capitals and the
    Latin-1 capitals (U+00C0 to U+00DE, the multiplication sign U+00D7
    apart) move up by 32. *)
Definition lower_char (c : ascii) : ascii :=
  let n := nat_of_ascii c in
  if ((65 <=? n) && (n <=? 90))%nat
     || ((192 <=? n) && (n <=? 222) && negb (n =? 215))%nat
  then ascii_of_nat (n + 32)
  else c.

(** [s.lower()] *)
Fixpoint lower (s : string) : string :=
  match s with
  | EmptyString => EmptyString
  | String c s' => String (lower_char c) (lower s')
  end.

(** [c.isspace()], which is also the class [\s] of [re] on [str]
    patterns, on the code points below 256. *)
Definition is_space (c : ascii) : bool :=
  let n := nat_of_ascii c in
  ((9 <=? n) && (n <=? 13) || (28 <=? n) && (n <=? 32)
   || (n =? 133) || (n =? 160))%nat.

(** [needle in hay] on strings: [needle] starts at some position. *)
Fixpoint contains (needle hay : string) : bool :=
  String.prefix needle hay
  || match hay with
     | EmptyString => false
     | String _ hay' => contains needle hay'
     end.

(** [s.split(sep)] for a one-character separator. *)
Fixpoint split (sep : ascii) (s : string) : list string :=
  match s with
  | EmptyString => [EmptyString]
  | String c s' =>
      if Ascii.eqb c sep then EmptyString :: split sep s'
      else match split sep s' with
           | l :: ls => String c l :: ls
           | [] => [String c EmptyString]
           end
  end.

(** [sep.join(ls)] is [String.concat sep ls]. *)
Definition join (sep : string) (ls : list string) : string :=
  String.concat sep ls.

(** Stripping the characters of a class from the left, from the right
    and from both ends. *)
Fixpoint lstrip_of (p : ascii -> bool) (s : string) : string :=
  match s with
  | EmptyString => EmptyString
  | String c s' => if p c then lstrip_of p s' else s
  end.

Fixpoint rstrip_of (p : ascii -> bool) (s : string) : string :=
  match s with
  | EmptyString => EmptyString
  | String c s' =>
      match rstrip_of p s' with
      | EmptyString => if p c then EmptyString else String c EmptyString
      | r => String c r
      end
  end.

Definition strip_of (p : ascii -> bool) (s : string) : string :=
  rstrip_of p (lstrip_of p s).

(** [s.strip()] *)
Definition strip (s : string) : string := strip_of is_space s.

(** [s[n:]] *)
Fixpoint drop (n : nat) (s : string) : string :=
  match n, s with
  | O, _ => s
  | S n', String _ s' => drop n' s'
  | S _, EmptyString => EmptyString
  end.

(** Every character of [w] is in the class [c]. *)
Fixpoint all_of (c : ascii -> bool) (w : string) : bool :=
  match w with
  | EmptyString => true
  | String a w' => c a && all_of c w'
  end.

(** [s.count(c)] for a character [c]. *)
Fixpoint count_char (c : ascii) (s : string) : nat :=
  match s with
  | EmptyString => O
  | String a s' => (if Ascii.eqb a c then 1 else 0) + count_char c s'
  end.

(** [p] is a prefix of [s], and a strict one. *)
Definition is_prefix (p s : string) : Prop := exists rest, s = p +:+ rest.

(** [t] occurs in [s]. *)
Definition occurs (t s : string) : Prop :=
  exists pre post, s = pre +:+ t +:+ post.

End Text.

(** ** The data model *)

(** [class DocumentType(str, Enum)] *)
Inductive DocumentType : Set :=
  | BANK_STATEMENT
  | CREDIT_CARD
  | BILL
  | LOAN
  | AUTO.

(** [doc_type.value] *)
Definition DocumentType_value (d : DocumentType) : string :=
  match d with
  | BANK_STATEMENT => "bank_statement"
  | CREDIT_CARD => "credit_card"
  | BILL => "bill"
  | LOAN => "loan"
  | AUTO => "auto"
  end.

(** ** DocumentClassifier: [detect_document_type] *)

Module Classifier.
Import Text.

Definition credit_card_terms : list string :=
  ["credit card"; "card ending"; "minimum payment due";
   "credit limit"; "available credit"; "apr"].

Definition loan_terms : list string :=
  ["loan"; "principal balance"; "payoff amount";
   "mortgage"; "interest rate"; "escrow"].

Definition bill_terms : list string :=
  ["electric"; "gas bill"; "water bill"; "internet";
   "phone bill"; "service period"; "meter reading";
   "usage"; "kwh"].

(** [any(term in text_lower for term in terms)] *)
Definition any_in (terms : list string) (text_lower : string) : bool :=
  existsb (fun term => contains term text_lower) terms.

Definition detect_document_type (text : string) : DocumentType :=
  let text_lower := lower text in
  if any_in credit_card_terms text_lower then CREDIT_CARD
  else if any_in loan_terms text_lower then LOAN
  else if any_in bill_terms text_lower then BILL
  else BANK_STATEMENT.

(** The rank of a category in the order of the tests. *)
Definition priority (d : DocumentType) : nat :=
  match d with
  | CREDIT_CARD => 3
  | LOAN => 2
  | BILL => 1
  | BANK_STATEMENT | AUTO => 0
  end.

(** One of [terms] occurs in the lower-cased transcript. *)
Definition indicated (terms : list string) (text : string) : Prop :=
  exists term, In term terms /\ occurs term (lower text).

End Classifier.

(** ** ContextBudgetTruncator: [truncate_text_for_context] *)

Module Truncator.
Import Text.

(** The marker appended at the cut: a line feed, then the marker line. *)
Definition sentinel : string :=
  String nl "[... document truncated for context limit ...]".

(** The [for line in lines] loop, with [result_lines] and [char_count]
    as they stand when [lines] remain. *)
Fixpoint truncate_loop (max_chars : Z) (lines result_lines : list string)
    (char_count : Z) : list string :=
  match lines with
  | [] => result_lines
  | line :: rest =>
      if char_count + len line + 1 >? max_chars
      then result_lines ++ [sentinel]
      else truncate_loop max_chars rest (result_lines ++ [line])
             (char_count + len line + 1)
  end.

Definition truncate_text_for_context (text : string) (max_chars : Z) : string :=
  if len text <=? max_chars then text
  else join (String nl EmptyString)
         (truncate_loop max_chars (split nl text) [] 0).

(** The lines kept, each followed by its line feed. *)
Fixpoint unlines (ls : list string) : string :=
  match ls with
  | [] => EmptyString
  | l :: ls' => l +:+ String nl (unlines ls')
  end.

(** The marker line itself. *)
Definition marker_line : string :=
  "[... document truncated for context limit ...]".

(** The output stays within the budget, the marker counted. *)
Definition within_budget (text : string) (max_chars : Z) : Prop :=
  len (truncate_text_for_context text max_chars) <= max_chars.


(** A transcript of [n] lines of twenty characters; ten of them are the
    transcript of the specification's example. *)
Definition lines_of_twenty (n : nat) : string :=
  join (String nl EmptyString) (repeat "aaaaaaaaaaaaaaaaaaaa" n).

Definition ten_lines : string := lines_of_twenty 10.

End Truncator.


(** ** Python values, exceptions and the library routines *)

Module Py.

(** The values [json.loads] builds: [None], [bool], [int], [float],
    [str], [list] and [dict] with [str] keys. *)
Inductive pyval : Type :=
  | PNone
  | PBool (b : bool)
  | PInt (z : Z)
  | PFloat (f : spec_float)
  | PStr (s : string)
  | PList (l : list pyval)
  | PDict (d : gmap string pyval).

(** The exceptions the modelled code can meet.  [HTTPException] carries
    its status code and detail. *)
Inductive exn : Type :=
  | AttributeError
  | TypeError
  | ValueError
  | OverflowError
  | ValidationError
  | HTTPException (status_code : Z) (detail : string).

(** A call either returns or raises. *)
Inductive outcome (A : Type) : Type :=
  | Ok (a : A)
  | Raise (e : exn).
#[global] Arguments Ok {A} a.
#[global] Arguments Raise {A} e.

(** What the service takes from its runtime: the parsers of the standard
    library, pydantic's coercion of a value that is not of the field's
    type (it differs between pydantic versions; [None] is a
    [ValidationError]), the text of an exception, and the two sources of
    fresh data, [uuid.uuid4] and the clock, as the answers to the calls
    made so far. *)
Record Runtime : Type := {
  json_loads : string -> option pyval;   (* [None]: [JSONDecodeError] *)
  str_to_float : string -> option spec_float;   (* [float(s)] *)
  str_to_int : string -> option Z;              (* [int(s)] *)
  lax_str : pyval -> option string;
  lax_int : pyval -> option Z;
  lax_float : pyval -> option spec_float;
  exn_str : exn -> string;                      (* [str(e)] *)
  uuid4 : nat -> string;      (* [str(uuid.uuid4())], the n-th call *)
  now_day : nat -> string;    (* [datetime.now().strftime("%Y-%m-%d")] *)
  now_month : nat -> string   (* [datetime.now().strftime("%Y-%m")] *)
}.

(** The binary64 value nearest to an integer (ties to even). *)
Definition float_of_Z (z : Z) : spec_float :=
  binary_normalize 53 1024 z 0 false.

(** [float(v)] *)
Definition py_float (rt : Runtime) (v : pyval) : outcome spec_float :=
  match v with
  | PFloat f => Ok f
  | PInt z =>
      match float_of_Z z with
      | S754_infinity _ => Raise OverflowError
      | f => Ok f
      end
  | PBool b => Ok (float_of_Z (if b then 1 else 0))
  | PStr s =>
      match str_to_float rt s with
      | Some f => Ok f
      | None => Raise ValueError
      end
  | PNone | PList _ | PDict _ => Raise TypeError
  end.

(** [int(v)]: a float is truncated towards zero. *)
Definition py_int (rt : Runtime) (v : pyval) : outcome Z :=
  match v with
  | PInt z => Ok z
  | PBool b => Ok (if b then 1 else 0)
  | PFloat f =>
      match f with
      | S754_zero _ => Ok 0
      | S754_finite s m e =>
          let a := Z.shiftl (Z.pos m) e in
          Ok (if s then - a else a)
      | S754_infinity _ => Raise OverflowError
      | S754_nan => Raise ValueError
      end
  | PStr s =>
      match str_to_int rt s with
      | Some z => Ok z
      | None => Raise ValueError
      end
  | PNone | PList _ | PDict _ => Raise TypeError
  end.

(** [bool(v)], the test of [if v:]. *)
Definition truthy (v : pyval) : bool :=
  match v with
  | PNone => false
  | PBool b => b
  | PInt z => negb (z =? 0)
  | PFloat f => match f with S754_zero _ => false | _ => true end
  | PStr s => negb (String.eqb s EmptyString)
  | PList l => match l with [] => false | _ => true end
  | PDict d => negb (Nat.eqb (size d) 0)
  end.

(** [v.get(key, default)]: only a [dict] has [get]. *)
Definition py_get (v : pyval) (key : string) (default : pyval) : outcome pyval :=
  match v with
  | PDict d => Ok (match d !! key with Some x => x | None => default end)
  | _ => Raise AttributeError
  end.

(** The characters of a string, each as a string. *)
Fixpoint chars (s : string) : list string :=
  match s with
  | EmptyString => []
  | String c s' => String c EmptyString :: chars s'
  end.

(** [for x in v]: the items the loop visits.  A [dict] yields its keys
    (the order is that of [map_to_list]; every key is a [str]). *)
Definition py_iter (v : pyval) : outcome (list pyval) :=
  match v with
  | PList l => Ok l
  | PDict d => Ok (map (fun kv => PStr (fst kv)) (map_to_list d))
  | PStr s => Ok (map PStr (chars s))
  | PNone | PBool _ | PInt _ | PFloat _ => Raise TypeError
  end.

End Py.

(** ** The records: [Transaction], [Bill], [Debt], [ParseResult] *)

Module Transaction.
Record t : Type := mk {
  id : string;
  description : string;
  amount : spec_float;
  type : string;
  date : string;
  category : option string
}.
End Transaction.

Module Bill.
Record t : Type := mk {
  id : string;
  name : string;
  amount : spec_float;
  dueDay : Z;
  isPaid : bool;
  billMonth : string;
  syncStatus : string
}.
End Bill.

Module Debt.
Record t : Type := mk {
  id : string;
  company : string;
  balance : spec_float;
  lastUpdated : string;
  notes : option string;
  syncStatus : string;
  isRecurring : bool;
  paymentDueDay : option Z;
  paymentFrequency : option string;
  minimumPayment : option spec_float
}.
End Debt.

Record ParseResult : Type := {
  success : bool;
  document_type : string;
  transactions : list Transaction.t;
  bills : list Bill.t;
  debts : list Debt.t;
  raw_text : option string;
  error : option string
}.

(** ** RecordNormalizer: [convert_to_driftmoney_format] *)

Module Normalizer.
Import Py.

(** *** pydantic's validation of the fields

    A value of the field's own type is taken as it is; any other value
    goes through the runtime's coercion. *)

Definition field_str (rt : Runtime) (v : pyval) : option string :=
  match v with
  | PStr s => Some s
  | _ => lax_str rt v
  end.

Definition field_opt_str (rt : Runtime) (v : pyval) : option (option string) :=
  match v with
  | PNone => Some None
  | PStr s => Some (Some s)
  | _ => option_map Some (lax_str rt v)
  end.

Definition field_opt_int (rt : Runtime) (v : pyval) : option (option Z) :=
  match v with
  | PNone => Some None
  | PInt z => Some (Some z)
  | _ => option_map Some (lax_int rt v)
  end.

Definition field_opt_float (rt : Runtime) (v : pyval)
    : option (option spec_float) :=
  match v with
  | PNone => Some None
  | PFloat f => Some (Some f)
  | _ => option_map Some (lax_float rt v)
  end.

(** [Transaction(id=.., description=.., amount=.., type=.., date=..,
    category=..)]: [id] is a [str] and [amount] a [float] already. *)
Definition new_Transaction (rt : Runtime) (id : string) (description : pyval)
    (amount : spec_float) (type date category : pyval)
    : outcome Transaction.t :=
  match field_str rt description, field_str rt type,
        field_str rt date, field_opt_str rt category with
  | Some d, Some t, Some dt, Some c => Ok (Transaction.mk id d amount t dt c)
  | _, _, _, _ => Raise ValidationError
  end.

(** [Bill(id=.., name=.., amount=.., dueDay=.., isPaid=.., billMonth=..)];
    [syncStatus] keeps its default. *)
Definition new_Bill (rt : Runtime) (id : string) (name : pyval)
    (amount : spec_float) (dueDay : Z) (isPaid : bool) (billMonth : pyval)
    : outcome Bill.t :=
  match field_str rt name, field_str rt billMonth with
  | Some n, Some m => Ok (Bill.mk id n amount dueDay isPaid m "dirty")
  | _, _ => Raise ValidationError
  end.

(** [Debt(id=.., company=.., balance=.., lastUpdated=.., isRecurring=..,
    paymentDueDay=.., paymentFrequency=.., minimumPayment=..)]; [notes]
    and [syncStatus] keep their defaults. *)
Definition new_Debt (rt : Runtime) (id : string) (company : pyval)
    (balance : spec_float) (lastUpdated : string) (isRecurring : bool)
    (paymentDueDay paymentFrequency minimumPayment : pyval)
    : outcome Debt.t :=
  match field_str rt company, field_opt_int rt paymentDueDay,
        field_opt_str rt paymentFrequency,
        field_opt_float rt minimumPayment with
  | Some c, Some d, Some f, Some m =>
      Ok (Debt.mk id c balance lastUpdated None "dirty" isRecurring d f m)
  | _, _, _, _ => Raise ValidationError
  end.

(** *** The state of a conversion

    The result under construction, which the code updates in place, and
    the number of calls made so far to [uuid.uuid4] and to the clock. *)
Record St : Type := {
  result : ParseResult;
  calls : nat
}.

(** A step of the conversion: it returns or raises, and leaves a state
    either way. *)
Definition M (A : Type) : Type := St -> outcome A * St.

Definition ret {A} (a : A) : M A := fun s => (Ok a, s).

Definition bind {A B} (m : M A) (k : A -> M B) : M B :=
  fun s =>
    match m s with
    | (Ok a, s') => k a s'
    | (Raise e, s') => (Raise e, s')
    end.

Definition lift {A} (o : outcome A) : M A := fun s => (o, s).

Notation "x <~ m ;; k" := (bind m (fun x => k))
  (at level 100, m at next level, right associativity).
Notation "m ;;; k" := (bind m (fun _ => k))
  (at level 100, right associativity).

(** [for x in l: f(x)] *)
Fixpoint for_each {A} (f : A -> M unit) (l : list A) : M unit :=
  match l with
  | [] => ret tt
  | x :: l' => f x ;;; for_each f l'
  end.

Definition tick (s : St) : St :=
  {| result := result s; calls := S (calls s) |}.

(** [generate_uuid()] *)
Definition generate_uuid (rt : Runtime) : M string :=
  fun s => (Ok (uuid4 rt (calls s)), tick s).

(** [datetime.now().strftime("%Y-%m-%d")] *)
Definition today (rt : Runtime) : M string :=
  fun s => (Ok (now_day rt (calls s)), tick s).

(** [get_current_month()] *)
Definition get_current_month (rt : Runtime) : M string :=
  fun s => (Ok (now_month rt (calls s)), tick s).

Definition update (f : ParseResult -> ParseResult) : M unit :=
  fun s => (Ok tt, {| result := f (result s); calls := calls s |}).

(** [result.transactions.append(t)] and its two siblings. *)
Definition append_transaction (t : Transaction.t) : M unit :=
  update (fun r =>
    {| success := success r; document_type := document_type r;
       transactions := transactions r ++ [t]; bills := bills r;
       debts := debts r; raw_text := raw_text r; error := error r |}).

Definition append_bill (b : Bill.t) : M unit :=
  update (fun r =>
    {| success := success r; document_type := document_type r;
       transactions := transactions r; bills := bills r ++ [b];
       debts := debts r; raw_text := raw_text r; error := error r |}).

Definition append_debt (d : Debt.t) : M unit :=
  update (fun r =>
    {| success := success r; document_type := document_type r;
       transactions := transactions r; bills := bills r;
       debts := debts r ++ [d]; raw_text := raw_text r; error := error r |}).

(** The body of the loop over the transactions: the keyword arguments
    are evaluated in the order they are written (the default of [date]
    reads the clock whether or not the key is there), then the record is
    validated and appended. *)
Definition convert_transaction (rt : Runtime) (tx : pyval) : M unit :=
  id <~ generate_uuid rt ;;
  description <~ lift (py_get tx "description" (PStr "Unknown")) ;;
  a <~ lift (py_get tx "amount" (PInt 0)) ;;
  amount <~ lift (py_float rt a) ;;
  type <~ lift (py_get tx "type" (PStr "expense")) ;;
  d <~ today rt ;;
  date <~ lift (py_get tx "date" (PStr d)) ;;
  category <~ lift (py_get tx "category" PNone) ;;
  t <~ lift (new_Transaction rt id description amount type date category) ;;
  append_transaction t.

(** [for tx in parsed_data.get("transactions", []): ...] *)
Definition convert_transactions (rt : Runtime) (parsed_data : pyval) : M unit :=
  txs <~ lift (py_get parsed_data "transactions" (PList [])) ;;
  items <~ lift (py_iter txs) ;;
  for_each (convert_transaction rt) items.

(** The debt of a credit card statement ([fixed_frequency]) or of a loan. *)
Definition convert_debt (rt : Runtime) (parsed_data : pyval)
    (default_company : string) (fixed_frequency : bool) : M unit :=
  debt_info <~ lift (py_get parsed_data "debt" (PDict ∅)) ;;
  if truthy debt_info then
    id <~ generate_uuid rt ;;
    company <~ lift (py_get debt_info "company" (PStr default_company)) ;;
    b <~ lift (py_get debt_info "balance" (PInt 0)) ;;
    balance <~ lift (py_float rt b) ;;
    lastUpdated <~ today rt ;;
    paymentDueDay <~ lift (py_get debt_info "paymentDueDay" PNone) ;;
    paymentFrequency <~
      (if fixed_frequency then ret (PStr "monthly")
       else lift (py_get debt_info "paymentFrequency" (PStr "monthly"))) ;;
    minimumPayment <~ lift (py_get debt_info "minimumPayment" PNone) ;;
    d <~ lift (new_Debt rt id company balance lastUpdated true
                 paymentDueDay paymentFrequency minimumPayment) ;;
    append_debt d
  else ret tt.

Definition convert_bill (rt : Runtime) (parsed_data : pyval) : M unit :=
  bill_info <~ lift (py_get parsed_data "bill" (PDict ∅)) ;;
  if truthy bill_info then
    id <~ generate_uuid rt ;;
    name <~ lift (py_get bill_info "name" (PStr "Bill")) ;;
    a <~ lift (py_get bill_info "amount" (PInt 0)) ;;
    amount <~ lift (py_float rt a) ;;
    dd <~ lift (py_get bill_info "dueDay" (PInt 1)) ;;
    dueDay <~ lift (py_int rt dd) ;;
    m <~ get_current_month rt ;;
    billMonth <~ lift (py_get bill_info "billMonth" (PStr m)) ;;
    b <~ lift (new_Bill rt id name amount dueDay false billMonth) ;;
    append_bill b
  else ret tt.

(** The body of the [try]. *)
Definition convert_body (rt : Runtime) (parsed_data : pyval)
    (doc_type : DocumentType) : M unit :=
  match doc_type with
  | BANK_STATEMENT => convert_transactions rt parsed_data
  | CREDIT_CARD =>
      convert_transactions rt parsed_data ;;;
      convert_debt rt parsed_data "Credit Card" true
  | BILL => convert_bill rt parsed_data
  | LOAN => convert_debt rt parsed_data "Loan" false
  | AUTO => ret tt
  end.

(** The result as it is created before the [try]. *)
Definition fresh_result (doc_type : DocumentType) : ParseResult :=
  {| success := true; document_type := DocumentType_value doc_type;
     transactions := []; bills := []; debts := [];
     raw_text := None; error := None |}.

(** The state in which a conversion starts, when [n] calls to
    [uuid.uuid4] and the clock have been made. *)
Definition start (n : nat) (doc_type : DocumentType) : St :=
  {| result := fresh_result doc_type; calls := n |}.

(** The [except Exception as e] handler. *)
Definition conversion_error (rt : Runtime) (e : exn) (r : ParseResult)
    : ParseResult :=
  {| success := false; document_type := document_type r;
     transactions := transactions r; bills := bills r; debts := debts r;
     raw_text := raw_text r;
     error := Some ("Conversion error: " +:+ exn_str rt e) |}.

(** [convert_to_driftmoney_format(parsed_data, doc_type)] *)
Definition convert_to_driftmoney_format (rt : Runtime) (n : nat)
    (parsed_data : pyval) (doc_type : DocumentType) : ParseResult :=
  match convert_body rt parsed_data doc_type (start n doc_type) with
  | (Ok _, s) => result s
  | (Raise e, s) => conversion_error rt e (result s)
  end.

(** The entries the loop over the transactions visits, none when the
    payload has no [get] or what it holds cannot be iterated. *)
Definition entries (parsed_data : pyval) : list pyval :=
  match py_get parsed_data "transactions" (PList []) with
  | Ok txs =>
      match py_iter txs with
      | Ok items => items
      | Raise _ => []
      end
  | Raise _ => []
  end.

(** A payload that holds the given entries and nothing else. *)
Definition only_transactions (items : list pyval) : pyval :=
  PDict {[ "transactions" := PList items ]}.

(** The key under which a category reads its single object. *)
Definition substructure_key (doc_type : DocumentType) : option string :=
  match doc_type with
  | BILL => Some "bill"
  | LOAN => Some "debt"
  | _ => None
  end.

(** [r'] is [r] with the records [ts], [bs] and [ds] appended. *)
Definition appended (r r' : ParseResult) (ts : list Transaction.t)
    (bs : list Bill.t) (ds : list Debt.t) : Prop :=
  transactions r' = transactions r ++ ts
  /\ bills r' = bills r ++ bs
  /\ debts r' = debts r ++ ds
  /\ success r' = success r
  /\ document_type r' = document_type r
  /\ raw_text r' = raw_text r
  /\ error r' = error r.

(** The transaction [t] is what the loop body appends for the entry
    [tx], in some state. *)
Definition made_from (rt : Runtime) (tx : pyval) (t : Transaction.t) : Prop :=
  exists s s',
    convert_transaction rt tx s = (Ok tt, s')
    /\ appended (result s) (result s') [t] [] [].

(** An exception in the mapping gives a failure with every collection
    empty. *)
Definition failure_leaves_collections_empty (rt : Runtime) (n : nat)
    (parsed_data : pyval) (doc_type : DocumentType) : Prop :=
  forall e s,
    convert_body rt parsed_data doc_type (start n doc_type) = (Raise e, s) ->
    let r := convert_to_driftmoney_format rt n parsed_data doc_type in
    success r = false /\ error r <> None
    /\ transactions r = [] /\ bills r = [] /\ debts r = [].

End Normalizer.

(** ** The regular expressions of [extract_json_from_response]

    A matcher tries the rest of the text and hands what it leaves to its
    continuation; [None] sends the search back to the last choice, in the
    order [re] tries the alternatives. *)

Module Re.
Import Text.

Definition cont (A : Type) : Type := string -> option A.

(** A literal. *)
Definition lit {A} (l : string) (k : cont A) : cont A :=
  fun s => if String.prefix l s then k (drop (String.length l) s) else None.

(** [(?:m)?]: with [m] first, then without. *)
Definition opt {A} (m : cont A -> cont A) (k : cont A) : cont A :=
  fun s => match m k s with Some r => Some r | None => k s end.

(** [c*] for a class [c], greedy: the longest run first. *)
Fixpoint star {A} (c : ascii -> bool) (k : cont A) (s : string) : option A :=
  match s with
  | String a s' =>
      if c a then
        match star c k s' with Some r => Some r | None => k s end
      else k s
  | EmptyString => k s
  end.

(** The group around a greedy [c*]: the run [g] read so far goes to the
    continuation. *)
Fixpoint star_group {A} (c : ascii -> bool) (k : string -> cont A)
    (g s : string) : option A :=
  match s with
  | String a s' =>
      if c a then
        match star_group c k (g +:+ String a EmptyString) s' with
        | Some r => Some r
        | None => k g s
        end
      else k g s
  | EmptyString => k g s
  end.

(** The group around a lazy [c*?]: the shortest run first. *)
Fixpoint lazy_group {A} (c : ascii -> bool) (k : string -> cont A)
    (g s : string) : option A :=
  match k g s with
  | Some r => Some r
  | None =>
      match s with
      | String a s' =>
          if c a then lazy_group c k (g +:+ String a EmptyString) s' else None
      | EmptyString => None
      end
  end.

(** [re.search]: the first position where the pattern matches. *)
Fixpoint search {A} (m : cont A) (s : string) : option A :=
  match m s with
  | Some r => Some r
  | None =>
      match s with
      | String _ s' => search m s'
      | EmptyString => None
      end
  end.

(** The class [[\s\S]]: any character. *)
Definition any (_ : ascii) : bool := true.

(** The search for a fenced block: three backticks, an optional [json],
    white space, the lazy group 1 of any characters, white space, three
    backticks.  It gives [group(1)]. *)
Definition search_fence (text : string) : option string :=
  search
    (lit "```" (opt (lit "json") (star is_space
       (lazy_group any
          (fun g => star is_space (lit "```" (fun _ => Some g)))
          EmptyString))))
    text.

(** The search for [open], any characters (greedy), [close]; it gives
    [group()], the whole match. *)
Definition search_span (open close : string) (text : string) : option string :=
  search
    (lit open
       (star_group any
          (fun g => lit close (fun _ => Some (open +:+ g +:+ close)))
          EmptyString))
    text.

(** The object pattern, from a brace to the last closing brace, and the
    array pattern, from a bracket to the last closing bracket. *)
Definition search_object : string -> option string := search_span "{" "}".
Definition search_array : string -> option string := search_span "[" "]".

End Re.

(** ** ResponseJSONExtractor: [extract_json_from_response] *)

Module Extractor.
Import Text Py Re.

(** The loop [for pattern in [...]] of the [except] branch, ending in
    the [ValueError]. *)
Fixpoint scan (rt : Runtime) (patterns : list (string -> option string))
    (text : string) : outcome pyval :=
  match patterns with
  | [] => Raise ValueError
  | pattern :: rest =>
      match pattern text with
      | Some m =>
          match json_loads rt m with
          | Some v => Ok v
          | None => scan rt rest text
          end
      | None => scan rt rest text
      end
  end.

(** What the function does with [text] once the fence has been looked
    for: [json.loads(text.strip())], then the patterns. *)
Definition parse_or_scan (rt : Runtime) (text : string) : outcome pyval :=
  match json_loads rt (strip text) with
  | Some v => Ok v
  | None => scan rt [search_object; search_array] text
  end.

Definition extract_json_from_response (rt : Runtime) (text : string)
    : outcome pyval :=
  let text :=
    match search_fence text with
    | Some group1 => group1
    | None => text
    end in
  parse_or_scan rt text.

(** The layered extraction as the specification words it: the contents
    of a fenced block when they parse; otherwise the entire trimmed
    text; otherwise the first object, then array, found in the text;
    otherwise the failure. *)
Definition extract_json_layered (rt : Runtime) (text : string)
    : outcome pyval :=
  match
    match search_fence text with
    | Some contents => json_loads rt (strip contents)
    | None => None
    end
  with
  | Some v => Ok v
  | None => parse_or_scan rt text
  end.

(** [contents] is group 1 of a fenced block of [text]: what stands
    between three backticks, an optional [json] and white space on one
    side, and white space and three backticks on the other. *)
Definition fenced (text contents : string) : Prop :=
  exists pre tag w1 w2 post,
    text = pre +:+ "```" +:+ tag +:+ w1 +:+ contents +:+ w2 +:+ "```" +:+ post
    /\ (tag = EmptyString \/ tag = "json")
    /\ all_of is_space w1 = true /\ all_of is_space w2 = true.


(** When the contents of the fenced block do not parse, the entire
    trimmed text is parsed next, and then scanned. *)
Definition fence_failure_falls_back_to_text (rt : Runtime) (text : string)
    : Prop :=
  forall contents,
    search_fence text = Some contents ->
    json_loads rt (strip contents) = None ->
    extract_json_from_response rt text = parse_or_scan rt text.

End Extractor.

(** ** InferenceClient: [call_ollama] *)

Module Inference.
Import Py.

(** [full_response += fragment]: a [str] only takes a [str]. *)
Definition str_add (full_response : string) (fragment : pyval)
    : outcome string :=
  match fragment with
  | PStr f => Ok (full_response +:+ f)
  | _ => Raise TypeError
  end.

(** The loop [async for line in response.aiter_lines()], with
    [full_response] as it stands when [lines] remain.  Only
    [json.JSONDecodeError] is caught. *)
Fixpoint aggregate (rt : Runtime) (lines : list string)
    (full_response : string) : outcome string :=
  match lines with
  | [] => Ok full_response
  | line :: rest =>
      if String.eqb line EmptyString then aggregate rt rest full_response
      else
        match json_loads rt line with
        | None => aggregate rt rest full_response
        | Some chunk =>
            match py_get chunk "response" (PStr EmptyString) with
            | Raise e => Raise e
            | Ok fragment =>
                match str_add full_response fragment with
                | Raise e => Raise e
                | Ok full_response' =>
                    match py_get chunk "done" (PBool false) with
                    | Raise e => Raise e
                    | Ok done =>
                        if truthy done then Ok full_response'
                        else aggregate rt rest full_response'
                    end
                end
            end
        end
  end.

(** [call_ollama(prompt)], given what the service answers: its status,
    its body when the status is not 200, and the lines of its stream. *)
Definition call_ollama (rt : Runtime) (status_code : Z) (error_text : string)
    (lines : list string) : outcome string :=
  if negb (status_code =? 200)
  then Raise (HTTPException 502 ("LLM service error: " +:+ error_text))
  else aggregate rt lines EmptyString.







End Inference.

(** ** The endpoints of the API service: [parse_document], [ocr_only],
    [list_models] and the calls they make *)

Module Service.
Import Text Py Classifier Truncator Extractor Inference Normalizer.

(** What a service answers: a status and a body. *)
Record Reply : Type := {
  status : Z;
  body : string
}.

(** What the API service finds around it.  A request raises when the
    service cannot be reached or the time runs out, and gets a reply
    otherwise; the inference service answers a prompt with a reply and
    the lines of its stream (a stream that breaks before its completing
    chunk is a request that raises).  [prompt_files] are the files of
    the prompts directory, by name. *)
Record World : Type := {
  ocr_service : string -> string -> outcome Reply;
  llm_service : string -> outcome (Reply * list string);
  llm_tags : outcome Reply;
  prompt_files : string -> option string
}.

(** [load_prompt(doc_type)] *)
Definition load_prompt (w : World) (doc_type : DocumentType) : outcome string :=
  match prompt_files w (DocumentType_value doc_type +:+ ".txt") with
  | Some template => Ok template
  | None => Raise ValueError
  end.

(** [call_surya_ocr(file_content, filename)]: [response.json()] raises a
    [ValueError] on a body that is not JSON, and what stands under "text"
    is returned as it is. *)
Definition call_surya_ocr (rt : Runtime) (w : World)
    (file_content filename : string) : outcome pyval :=
  match ocr_service w filename file_content with
  | Raise e => Raise e
  | Ok response =>
      if negb (status response =? 200)
      then Raise (HTTPException 502 ("OCR service error: " +:+ body response))
      else
        match json_loads rt (body response) with
        | None => Raise ValueError
        | Some result => py_get result "text" (PStr EmptyString)
        end
  end.

(** [call_ollama(prompt)] on the inference service of the world. *)
Definition request_ollama (rt : Runtime) (w : World) (prompt : string)
    : outcome string :=
  match llm_service w prompt with
  | Raise e => Raise e
  | Ok (response, lines) => call_ollama rt (status response) (body response) lines
  end.

(** The prompt: the template, an empty line, the transcript cut to 10000
    characters. *)
Definition full_prompt (prompt_template ocr_text : string) : string :=
  prompt_template +:+ String nl (String nl EmptyString)
  +:+ truncate_text_for_context ocr_text 10000.

(** Step 3 of [parse_document], the body of its second [try]. *)
Definition llm_parse (rt : Runtime) (w : World) (document_type : DocumentType)
    (ocr_text : string) : outcome pyval :=
  match load_prompt w document_type with
  | Raise e => Raise e
  | Ok prompt_template =>
      match request_ollama rt w (full_prompt prompt_template ocr_text) with
      | Raise e => Raise e
      | Ok llm_response => extract_json_from_response rt llm_response
      end
  end.

(** [result.raw_text = ocr_text] *)
Definition set_raw_text (r : ParseResult) (ocr_text : string) : ParseResult :=
  {| success := success r; document_type := document_type r;
     transactions := transactions r; bills := bills r; debts := debts r;
     raw_text := Some ocr_text; error := error r |}.

(** The category the pipeline works with: the requested one, or the
    detected one when the request says [AUTO]. *)
Definition resolve (document_type : DocumentType) (ocr_text : string)
    : DocumentType :=
  match document_type with
  | AUTO => detect_document_type ocr_text
  | _ => document_type
  end.

(** [parse_document(file, document_type, include_raw_text)], for a file
    with the given name and content, when [n] calls to [uuid.uuid4] and
    the clock have been made.  Only a [str] has [strip]. *)
Definition parse_document (rt : Runtime) (w : World) (n : nat)
    (filename content : string) (document_type : DocumentType)
    (include_raw_text : bool) : outcome ParseResult :=
  match call_surya_ocr rt w content filename with
  | Raise e => Raise (HTTPException 502 ("OCR failed: " +:+ exn_str rt e))
  | Ok (PStr ocr_text) =>
      if String.eqb (strip ocr_text) EmptyString
      then Raise (HTTPException 400 "No text extracted from document")
      else
        let document_type := resolve document_type ocr_text in
        match llm_parse rt w document_type ocr_text with
        | Raise e =>
            Raise (HTTPException 500 ("LLM parsing failed: " +:+ exn_str rt e))
        | Ok parsed_data =>
            let result :=
              convert_to_driftmoney_format rt n parsed_data document_type in
            Ok (if include_raw_text then set_raw_text result ocr_text
                else result)
        end
  | Ok _ => Raise AttributeError
  end.

(** The object [ocr_only] returns. *)
Module OcrOnly.
Record t : Type := mk {
  success : bool;
  filename : string;
  detected_type : string;
  text : string;
  char_count : Z;
  line_count : Z
}.
End OcrOnly.

(** [ocr_only(file)]: only a [str] has [lower]. *)
Definition ocr_only (rt : Runtime) (w : World) (filename content : string)
    : outcome OcrOnly.t :=
  let attempt :=
    match call_surya_ocr rt w content filename with
    | Raise e => Raise e
    | Ok (PStr ocr_text) =>
        Ok (OcrOnly.mk true filename
              (DocumentType_value (detect_document_type ocr_text))
              ocr_text (len ocr_text)
              (Z.of_nat (length (split nl ocr_text))))
    | Ok _ => Raise AttributeError
    end in
  match attempt with
  | Ok r => Ok r
  | Raise e => Raise (HTTPException 500 ("OCR failed: " +:+ exn_str rt e))
  end.

(** [list_models()]: a status other than 200 falls out of the [if], and
    the function returns [None]. *)
Definition list_models (rt : Runtime) (w : World) : outcome pyval :=
  let attempt :=
    match llm_tags w with
    | Raise e => Raise e
    | Ok response =>
        if status response =? 200 then
          match json_loads rt (body response) with
          | Some v => Ok v
          | None => Raise ValueError
          end
        else Ok PNone
    end in
  match attempt with
  | Ok v => Ok v
  | Raise e => Raise (HTTPException 502 ("Cannot reach Ollama: " +:+ exn_str rt e))
  end.

End Service.

(** ** The OCR service (surya-service/main.py): [extract_text_from_result],
    [ocr_extract], [ocr_batch] *)

Module OcrService.
Import Text Py.

(** The result of the predictor, as far as the service reads it. *)
Record Word : Type := { value : string }.
Record Line : Type := { words : list Word }.
Record Block : Type := { lines : list Line }.
Record Page : Type := { blocks : list Block }.
Record Document : Type := { pages : list Page }.

(** [" ".join([word.value for word in line.words])] *)
Definition line_text (line : Line) : string :=
  join " " (map value (words line)).

(** [text_lines] when the three loops are through. *)
Definition text_lines (result : Document) : list string :=
  flat_map
    (fun page =>
       flat_map (fun block => map line_text (lines block)) (blocks page))
    (pages result).

Definition extract_text_from_result (result : Document) : string :=
  join (String nl EmptyString) (text_lines result).

(** The lines and the words of a result, in reading order. *)
Definition lines_of (result : Document) : list Line :=
  flat_map (fun page => flat_map lines (blocks page)) (pages result).

Definition words_of (result : Document) : list Word :=
  flat_map words (lines_of result).

(** The same lines on one page, in one block. *)
Definition flattened (result : Document) : Document :=
  {| pages := [ {| blocks := [ {| lines := lines_of result |} ] |} ] |}.

(** An uploaded file. *)
Record Upload : Type := {
  filename : string;
  content : string
}.

(** The content of the response of [ocr_extract]. *)
Record Extracted : Type := {
  success : bool;
  extracted_filename : string;
  text : string;
  char_count : Z;
  line_count : Z
}.

Section Host.

(** The documents [DocumentFile] loads. *)
Context {Doc : Type}.

(** What [ocr_extract] takes from its host, for one upload: the suffix
    [pathlib] finds in a file name, the text of the set of extensions in
    the message, the temporary directory, the writing of the temporary
    file from the upload, the two loaders, the predictor (the model
    loaded when needed), and the [finally] block. *)
Record Host : Type := {
  suffix : string -> string;
  allowed_text : string;
  mkdtemp : Upload -> outcome string;
  write_temp : Upload -> outcome unit;
  from_pdf : Upload -> outcome Doc;
  from_images : Upload -> outcome Doc;
  predictor : Doc -> outcome Document;
  cleanup : Upload -> outcome unit;
  seek : Upload -> outcome unit;
  exn_text : exn -> string
}.

Definition allowed_extensions : list string :=
  [".pdf"; ".png"; ".jpg"; ".jpeg"; ".tiff"; ".bmp"].

Definition allowed (file_ext : string) : bool :=
  existsb (String.eqb file_ext) allowed_extensions.

(** The body of the [try]: write the upload, load it, run the predictor,
    build the response. *)
Definition process (h : Host) (file : Upload) (file_ext : string)
    : outcome Extracted :=
  match write_temp h file with
  | Raise e => Raise e
  | Ok _ =>
      match (if String.eqb file_ext ".pdf" then from_pdf h file
             else from_images h file) with
      | Raise e => Raise e
      | Ok doc =>
          match predictor h doc with
          | Raise e => Raise e
          | Ok result =>
              let extracted_text := extract_text_from_result result in
              Ok {| success := true;
                    extracted_filename := filename file;
                    text := extracted_text;
                    char_count := len extracted_text;
                    line_count :=
                      Z.of_nat (length (split nl extracted_text)) |}
          end
      end
  end.

(** [ocr_extract(file)]: the check of the extension, the temporary
    directory, the [try] with its [except Exception], and the [finally]
    block, whose exception, if it raises, is the one that leaves. *)
Definition ocr_extract (h : Host) (file : Upload) : outcome Extracted :=
  let file_ext := lower (suffix h (filename file)) in
  if negb (allowed file_ext) then
    Raise (HTTPException 400
             ("Unsupported file type: " +:+ file_ext +:+ ". Allowed: "
              +:+ allowed_text h))
  else
    match mkdtemp h file with
    | Raise e => Raise e
    | Ok _ =>
        let attempt :=
          match process h file file_ext with
          | Ok r => Ok r
          | Raise e =>
              Raise (HTTPException 500
                       ("OCR processing failed: " +:+ exn_text h e))
          end in
        match cleanup h file with
        | Raise e => Raise e
        | Ok _ => attempt
        end
    end.

(** An entry of the results of [ocr_batch]: the body of the response of
    a file, which is bytes, or the object written for a file that
    failed. *)
Inductive entry : Type :=
  | Body (response : Extracted)
  | Failure (failed_filename : string) (error : string).

Definition is_body (e : entry) : bool :=
  match e with
  | Body _ => true
  | Failure _ _ => false
  end.

(** The body of the [try] of [ocr_batch]: [file.seek(0)], then
    [ocr_extract(file)]. *)
Definition rewound_extract (h : Host) (file : Upload) : outcome Extracted :=
  match seek h file with
  | Raise e => Raise e
  | Ok _ => ocr_extract h file
  end.

(** The loop of [ocr_batch], with [results] as they stand when [files]
    remain.  Only an [HTTPException] is caught. *)
Fixpoint batch_loop (h : Host) (files : list Upload) (results : list entry)
    : outcome (list entry) :=
  match files with
  | [] => Ok results
  | file :: rest =>
      match rewound_extract h file with
      | Ok result => batch_loop h rest (results ++ [Body result])
      | Raise (HTTPException _ detail) =>
          batch_loop h rest (results ++ [Failure (filename file) detail])
      | Raise e => Raise e
      end
  end.

(** [JSONResponse({"results": results})]: [json.dumps] has no encoding
    for bytes and raises a [TypeError] on them. *)
Definition render_results (results : list entry) : outcome (list entry) :=
  if existsb is_body results then Raise TypeError else Ok results.

(** [ocr_batch(files)] *)
Definition ocr_batch (h : Host) (files : list Upload) : outcome (list entry) :=
  match batch_loop h files [] with
  | Raise e => Raise e
  | Ok results => render_results results
  end.

End Host.

#[global] Arguments Host Doc : clear implicits.

End OcrService.

(** ** A reference runtime

    Python's own routines on 8-bit text, for running the model on concrete
    inputs: the JSON decoder of [json.loads], [float] and [int] of a
    string (digit-group underscores apart), a pydantic that coerces an
    [int] to a [float] field and nothing else, and fixed answers of
    [uuid4] and the clock. *)

Module Reference.
Import Text Py.

Definition quote : ascii := "034"%char.
Definition backslash : ascii := "092"%char.

(** The white space [float] and [int] allow around a number: that of
    [str.strip] without the four separators U+001C to U+001F. *)
Definition number_space (c : ascii) : bool :=
  let n := nat_of_ascii c in
  is_space c && negb ((28 <=? n) && (n <=? 31))%nat.

Definition digit (c : ascii) : option Z :=
  let n := nat_of_ascii c in
  if ((48 <=? n) && (n <=? 57))%nat then Some (Z.of_nat (n - 48)) else None.

(** A run of digits: the number read after [acc], how many digits were
    read, and the rest. *)
Fixpoint digits (acc : Z) (count : nat) (s : string) : Z * nat * string :=
  match s with
  | String c s' =>
      match digit c with
      | Some d => digits (10 * acc + d) (S count) s'
      | None => (acc, count, s)
      end
  | EmptyString => (acc, count, s)
  end.

(** An optional sign, a minus or ([plus_too]) a plus: whether it was a
    minus, and the rest. *)
Definition sign (plus_too : bool) (s : string) : bool * string :=
  match s with
  | String c s' =>
      if Ascii.eqb c "-" then (true, s')
      else if plus_too && Ascii.eqb c "+" then (false, s')
      else (false, s)
  | EmptyString => (false, s)
  end.

(** The binary64 value nearest to [m * 10 ^ e], for [m >= 0]. *)
Definition decimal_to_float (neg : bool) (m e : Z) : spec_float :=
  match m with
  | Z.pos p =>
      if 0 <=? e
      then binary_normalize 53 1024 ((if neg then -1 else 1) * (m * 10 ^ e)) 0 neg
      else SFdiv 53 1024 (S754_finite neg p 0)
             (S754_finite false (Z.to_pos (10 ^ (- e))) 0)
  | _ => S754_zero neg
  end.

(** An exponent part, when one is there in full: its value and the rest. *)
Definition exponent (s : string) : option (Z * string) :=
  match s with
  | String c s' =>
      if Ascii.eqb c "e" || Ascii.eqb c "E" then
        let '(neg, s1) := sign true s' in
        let '(e, n, rest) := digits 0 0 s1 in
        match n with
        | O => None
        | S _ => Some (if neg then - e else e, rest)
        end
      else None
  | EmptyString => None
  end.

(** A fraction part, when one is there: the mantissa extended by its
    digits, their number, and the rest; [bare] allows a point with no
    digit after it. *)
Definition fraction (bare : bool) (m : Z) (s : string) : option (Z * nat * string) :=
  match s with
  | String c s' =>
      if Ascii.eqb c "." then
        let '(m', n, rest) := digits m 0 s' in
        match n with
        | O => if bare then Some (m, O, s') else None
        | S _ => Some (m', n, rest)
        end
      else None
  | EmptyString => None
  end.

(** [int(s)] *)
Definition int_of_string (s : string) : option Z :=
  let '(neg, s1) := sign true (strip_of number_space s) in
  let '(z, n, rest) := digits 0 0 s1 in
  match n, rest with
  | S _, EmptyString => Some (if neg then - z else z)
  | _, _ => None
  end.

(** [float(s)] *)
Definition float_of_string (s : string) : option spec_float :=
  let '(neg, s1) := sign true (strip_of number_space s) in
  let l := lower s1 in
  if String.eqb l "inf" || String.eqb l "infinity" then Some (S754_infinity neg)
  else if String.eqb l "nan" then Some S754_nan
  else
    let '(i, ni, r1) := digits 0 0 s1 in
    let '(m, nf, r2) :=
      match fraction true i r1 with
      | Some x => x
      | None => (i, O, r1)
      end in
    let '(e, r3) :=
      match exponent r2 with
      | Some x => x
      | None => (0, r2)
      end in
    match (ni + nf)%nat, r3 with
    | S _, EmptyString => Some (decimal_to_float neg m (e - Z.of_nat nf))
    | _, _ => None
    end.

(** *** The decoder of [json.loads] *)

Definition json_ws (c : ascii) : bool :=
  Ascii.eqb c " " || Ascii.eqb c "009" || Ascii.eqb c "010" || Ascii.eqb c "013".

Fixpoint skip_ws (s : string) : string :=
  match s with
  | String c s' => if json_ws c then skip_ws s' else s
  | EmptyString => s
  end.

Definition hex (c : ascii) : option nat :=
  let n := nat_of_ascii c in
  if ((48 <=? n) && (n <=? 57))%nat then Some (n - 48)%nat
  else if ((65 <=? n) && (n <=? 70))%nat then Some (n - 55)%nat
  else if ((97 <=? n) && (n <=? 102))%nat then Some (n - 87)%nat
  else None.

(** The character of a one-letter escape. *)
Definition escape (c : ascii) : option ascii :=
  if Ascii.eqb c quote then Some quote
  else if Ascii.eqb c backslash then Some backslash
  else if Ascii.eqb c "/" then Some "/"%char
  else if Ascii.eqb c "b" then Some "008"%char
  else if Ascii.eqb c "f" then Some "012"%char
  else if Ascii.eqb c "n" then Some "010"%char
  else if Ascii.eqb c "r" then Some "013"%char
  else if Ascii.eqb c "t" then Some "009"%char
  else None.

(** A string, from after its opening quote: its value and the rest.  A
    [\u] escape of a code point of 256 or more has no value here. *)
Fixpoint scan_string (s : string) : option (string * string) :=
  match s with
  | EmptyString => None
  | String c s' =>
      if Ascii.eqb c quote then Some (EmptyString, s')
      else if Ascii.eqb c backslash then
        match s' with
        | String e s'' =>
            if Ascii.eqb e "u" then
              match s'' with
              | String h1 (String h2 (String h3 (String h4 r))) =>
                  match hex h1, hex h2, hex h3, hex h4, scan_string r with
                  | Some 0%nat, Some 0%nat, Some a, Some b, Some (v, rest) =>
                      Some (String (ascii_of_nat (16 * a + b)) v, rest)
                  | _, _, _, _, _ => None
                  end
              | _ => None
              end
            else
              match escape e, scan_string s'' with
              | Some a, Some (v, rest) => Some (String a v, rest)
              | _, _ => None
              end
        | EmptyString => None
        end
      else if (nat_of_ascii c <? 32)%nat then None
      else
        match scan_string s' with
        | Some (v, rest) => Some (String c v, rest)
        | None => None
        end
  end.

(** A number: an [int], or a [float] when a fraction or an exponent
    follows the integer part. *)
Definition scan_number (s : string) : option (pyval * string) :=
  let '(neg, s1) := sign false s in
  let '(i, ni, r1) :=
    match s1 with
    | String c s2 => if Ascii.eqb c "0" then (0, 1%nat, s2) else digits 0 0 s1
    | EmptyString => (0, O, s1)
    end in
  match ni with
  | O => None
  | S _ =>
      let '(m, nf, r2, has_frac) :=
        match fraction false i r1 with
        | Some (m, nf, r) => (m, nf, r, true)
        | None => (i, O, r1, false)
        end in
      let '(e, r3, has_exp) :=
        match exponent r2 with
        | Some (e, r) => (e, r, true)
        | None => (0, r2, false)
        end in
      if has_frac || has_exp
      then Some (PFloat (decimal_to_float neg m (e - Z.of_nat nf)), r3)
      else Some (PInt (if neg then - i else i), r3)
  end.

(** A literal [word] standing for [v]. *)
Definition literal (word : string) (v : pyval) (s : string)
    : option (pyval * string) :=
  if String.prefix word s then Some (v, drop (String.length word) s) else None.

(** A value at the start of [s], the items of an array after its
    bracket, and the members of an object after its brace; [fuel] bounds
    the nesting and the number of items. *)
Fixpoint scan_value (fuel : nat) (s : string) {struct fuel}
    : option (pyval * string) :=
  match fuel, s with
  | S fuel', String c s' =>
      if Ascii.eqb c quote then
        match scan_string s' with
        | Some (v, rest) => Some (PStr v, rest)
        | None => None
        end
      else if Ascii.eqb c "{" then
        match skip_ws s' with
        | String c1 r1 =>
            if Ascii.eqb c1 "}" then Some (PDict ∅, r1)
            else scan_members fuel' ∅ (String c1 r1)
        | EmptyString => None
        end
      else if Ascii.eqb c "[" then
        match skip_ws s' with
        | String c1 r1 =>
            if Ascii.eqb c1 "]" then Some (PList [], r1)
            else scan_items fuel' [] (String c1 r1)
        | EmptyString => None
        end
      else if Ascii.eqb c "n" then literal "null" PNone s
      else if Ascii.eqb c "t" then literal "true" (PBool true) s
      else if Ascii.eqb c "f" then literal "false" (PBool false) s
      else if Ascii.eqb c "N" then literal "NaN" (PFloat S754_nan) s
      else if Ascii.eqb c "I" then
        literal "Infinity" (PFloat (S754_infinity false)) s
      else if String.prefix "-Infinity" s then
        literal "-Infinity" (PFloat (S754_infinity true)) s
      else scan_number s
  | _, _ => None
  end
with scan_items (fuel : nat) (acc : list pyval) (s : string) {struct fuel}
    : option (pyval * string) :=
  match fuel with
  | S fuel' =>
      match scan_value fuel' s with
      | Some (v, rest) =>
          match skip_ws rest with
          | String c r =>
              if Ascii.eqb c "]" then Some (PList (acc ++ [v]), r)
              else if Ascii.eqb c "," then scan_items fuel' (acc ++ [v]) (skip_ws r)
              else None
          | EmptyString => None
          end
      | None => None
      end
  | O => None
  end
with scan_members (fuel : nat) (acc : gmap string pyval) (s : string)
    {struct fuel} : option (pyval * string) :=
  match fuel, s with
  | S fuel', String c s' =>
      if Ascii.eqb c quote then
        match scan_string s' with
        | Some (key, r1) =>
            match skip_ws r1 with
            | String c1 r2 =>
                if Ascii.eqb c1 ":" then
                  match scan_value fuel' (skip_ws r2) with
                  | Some (v, r3) =>
                      match skip_ws r3 with
                      | String c2 r4 =>
                          if Ascii.eqb c2 "}" then Some (PDict (<[key:=v]> acc), r4)
                          else if Ascii.eqb c2 ","
                          then scan_members fuel' (<[key:=v]> acc) (skip_ws r4)
                          else None
                      | EmptyString => None
                      end
                  | None => None
                  end
                else None
            | EmptyString => None
            end
        | None => None
        end
      else None
  | _, _ => None
  end.

(** [json.loads(s)]: one value, with white space around it and nothing
    else. *)
Definition loads (s : string) : option pyval :=
  match scan_value (2 * String.length s + 2) (skip_ws s) with
  | Some (v, rest) =>
      match skip_ws rest with
      | EmptyString => Some v
      | String _ _ => None
      end
  | None => None
  end.

Definition name_of (e : exn) : string :=
  match e with
  | AttributeError => "AttributeError"
  | TypeError => "TypeError"
  | ValueError => "ValueError"
  | OverflowError => "OverflowError"
  | ValidationError => "ValidationError"
  | HTTPException _ detail => detail
  end.

Definition int_as_float (v : pyval) : option spec_float :=
  match v with
  | PInt z =>
      match float_of_Z z with
      | S754_infinity _ => None
      | f => Some f
      end
  | _ => None
  end.

Definition runtime : Runtime := {|
  json_loads := loads;
  str_to_float := float_of_string;
  str_to_int := int_of_string;
  lax_str := fun _ => None;
  lax_int := fun _ => None;
  lax_float := int_as_float;
  exn_str := name_of;
  uuid4 := fun n => "uuid-" +:+ pretty n;
  now_day := fun _ => "2024-05-17";
  now_month := fun _ => "2024-05"
|}.

(** A string between quotes, for writing JSON text. *)
Definition quoted (s : string) : string :=
  String quote s +:+ String quote EmptyString.

End Reference.

(** ** Sample inputs *)

Module Samples.
Import Py.

(** A stream on the reference runtime: two fragments, a line that is not
    JSON, an empty line, a third fragment, the chunk that signals
    completion with a last fragment, and two lines after it, the second
    one not even an object. *)
Definition sample_stream : list string :=
  let q := Reference.quoted in
  [ "{" +:+ q "response" +:+ ": " +:+ q "Hel" +:+ ", " +:+ q "done" +:+ ": false}";
    "{" +:+ q "response" +:+ ": " +:+ q "lo, " +:+ "}";
    "xx not json";
    EmptyString;
    "{" +:+ q "response" +:+ ": " +:+ q "wor" +:+ "}";
    "{" +:+ q "done" +:+ ": true, " +:+ q "response" +:+ ": " +:+ q "ld" +:+ "}";
    "{" +:+ q "response" +:+ ": " +:+ q "ignored" +:+ "}";
    "[1, 2]" ].

(** A payload with two transactions, the second with a [null] amount. *)
Definition second_amount_null : pyval :=
  PDict {[ "transactions" :=
    PList [ PDict {[ "description" := PStr "Coffee"; "amount" := PInt 4 ]};
            PDict {[ "description" := PStr "Rent"; "amount" := PNone ]} ] ]}.

(** The bill of the specification's example, with an [isPaid] of its own. *)
Definition electric_bill : pyval :=
  PDict {[ "bill" :=
    PDict {[ "name" := PStr "Electric";
             "amount" := PFloat (Reference.decimal_to_float false 1205 (-1));
             "dueDay" := PInt 15;
             "isPaid" := PBool true ]} ]}.

(** A card statement with one transaction that has no amount, and a debt
    with a payment frequency of its own. *)
Definition card_statement_fields : gmap string pyval :=
  {[ "transactions" := PList [ PDict {[ "description" := PStr "Fee" ]} ];
     "debt" := PDict {[ "company" := PStr "Visa";
                        "balance" := PInt 250;
                        "paymentFrequency" := PStr "weekly" ]} ]}.

Definition card_statement : pyval := PDict card_statement_fields.

End Samples.

(** ** Sample worlds *)

Module Scenarios.
Import Py Service.

(** The body the OCR service sends for a transcript. *)
Definition ocr_body (transcript : string) : string :=
  "{" +:+ Reference.quoted "text" +:+ ": " +:+ Reference.quoted transcript
  +:+ "}".

(** A world in which the OCR service answers with [ocr] and the inference
    service with [llm], and every category has the same template. *)
Definition world (ocr : outcome Reply) (llm : outcome (Reply * list string))
    : World := {|
  ocr_service := fun _ _ => ocr;
  llm_service := fun _ => llm;
  llm_tags := Ok {| status := 200; body := "{}" |};
  prompt_files := fun _ => Some "Extract the records as JSON."
|}.

(** The reference runtime with the text Starlette gives an
    [HTTPException]: the status, a colon and the detail. *)
Definition exception_text (e : exn) : string :=
  match e with
  | HTTPException status_code detail => pretty status_code +:+ ": " +:+ detail
  | _ => Reference.name_of e
  end.

Definition runtime : Runtime := {|
  json_loads := Reference.loads;
  str_to_float := Reference.float_of_string;
  str_to_int := Reference.int_of_string;
  lax_str := fun _ => None;
  lax_int := fun _ => None;
  lax_float := Reference.int_as_float;
  exn_str := exception_text;
  uuid4 := fun n => "uuid-" +:+ pretty n;
  now_day := fun _ => "2024-05-17";
  now_month := fun _ => "2024-05"
|}.

(** The OCR service reads a transcript. *)
Definition reads (transcript : string) : outcome Reply :=
  Ok {| status := 200; body := ocr_body transcript |}.

(** The inference service streams one chunk that holds [answer] and
    completes. *)
Definition answers (answer : string) : outcome (Reply * list string) :=
  Ok ({| status := 200; body := EmptyString |},
      [ "{" +:+ Reference.quoted "response" +:+ ": " +:+ Reference.quoted answer
        +:+ ", " +:+ Reference.quoted "done" +:+ ": true}" ]).

(** The inference service answers with a status of 503. *)
Definition overloaded : outcome (Reply * list string) :=
  Ok ({| status := 503; body := "busy" |}, []).

(** The suffix of a plain file name, as [pathlib] finds it: from the last
    dot, when that dot is neither the first nor the last character. *)
Fixpoint from_last_dot (s : string) : option string :=
  match s with
  | EmptyString => None
  | String c s' =>
      match from_last_dot s' with
      | Some t => Some t
      | None => if Ascii.eqb c "." then Some s else None
      end
  end.

Definition plain_suffix (name : string) : string :=
  match name with
  | String _ rest =>
      match from_last_dot rest with
      | Some t => if String.eqb t "." then EmptyString else t
      | None => EmptyString
      end
  | EmptyString => EmptyString
  end.

(** A host on which every step works and the predictor reads the
    content of the upload as one line of one word. *)
Definition host : OcrService.Host string := {|
  OcrService.suffix := plain_suffix;
  OcrService.allowed_text := "{'.pdf', '.png', '.jpg', '.jpeg', '.tiff', '.bmp'}";
  OcrService.mkdtemp := fun _ => Ok "/tmp/tmpabc";
  OcrService.write_temp := fun _ => Ok tt;
  OcrService.from_pdf := fun file => Ok (OcrService.content file);
  OcrService.from_images := fun file => Ok (OcrService.content file);
  OcrService.predictor := fun doc =>
    Ok {| OcrService.pages :=
            [ {| OcrService.blocks :=
                   [ {| OcrService.lines :=
                          [ {| OcrService.words :=
                                 [ {| OcrService.value := doc |} ] |} ] |} ] |} ] |};
  OcrService.cleanup := fun _ => Ok tt;
  OcrService.seek := fun _ => Ok tt;
  OcrService.exn_text := exception_text
|}.

End Scenarios.

(** * Properties *)

#[local] Arguments String.append !_ _ / : simpl nomatch.

(** ** Facts about text *)

Section TextFacts.
Import Text.

Lemma append_assoc (a b c : string) : (a +:+ b) +:+ c = a +:+ (b +:+ c).
Proof. induction a as [|x a IH]; simpl; [reflexivity | now rewrite IH]. Qed.

Lemma append_empty_r (a : string) : a +:+ EmptyString = a.
Proof. induction a as [|x a IH]; simpl; [reflexivity | now rewrite IH]. Qed.

Lemma length_append (a b : string) :
  String.length (a +:+ b) = (String.length a + String.length b)%nat.
Proof. induction a as [|x a IH]; simpl; [reflexivity | now rewrite IH]. Qed.

Lemma len_append (a b : string) : len (a +:+ b) = len a + len b.
Proof. unfold len. rewrite length_append. lia. Qed.

Lemma len_nonneg (a : string) : 0 <= len a.
Proof. unfold len. lia. Qed.

Lemma len_zero (a : string) : len a = 0 -> a = EmptyString.
Proof. destruct a; [reflexivity | unfold len; simpl; lia]. Qed.

Lemma prefix_spec (p s : string) :
  String.prefix p s = true <-> is_prefix p s.
Proof.
  unfold is_prefix. revert s.
  induction p as [|a p IH]; intros s; simpl.
  - destruct s; split; eauto.
  - destruct s as [|b s]; simpl.
    + split; [discriminate | intros [r Hr]; discriminate].
    + destruct (ascii_dec a b) as [->|Hab].
      * rewrite IH. split; intros [r Hr]; exists r; congruence.
      * split; [discriminate | intros [r Hr]; congruence].
Qed.

Lemma contains_spec (t s : string) : contains t s = true <-> occurs t s.
Proof.
  unfold occurs. induction s as [|c s IH].
  - cbn [contains]. rewrite orb_false_r, prefix_spec. split.
    + intros [r Hr]. exists EmptyString, r. exact Hr.
    + intros [pre [post H]]. destruct pre; [now exists post | discriminate].
  - cbn [contains]. rewrite orb_true_iff, prefix_spec, IH. split.
    + intros [[r Hr] | [pre [post H]]].
      * exists EmptyString, r. exact Hr.
      * exists (String c pre), post. simpl. now rewrite H.
    + intros [pre [post H]]. destruct pre as [|x pre]; simpl in H.
      * left. now exists post.
      * right. exists pre, post. congruence.
Qed.

Lemma lower_append (a b : string) : lower (a +:+ b) = lower a +:+ lower b.
Proof. induction a as [|x a IH]; simpl; [reflexivity | now rewrite IH]. Qed.

(** A word that occurs in a text occurs, lower-cased, in the lower-cased
    text. *)
Lemma occurs_lower (w s : string) : occurs w s -> occurs (lower w) (lower s).
Proof.
  intros [pre [post ->]]. exists (lower pre), (lower post).
  now rewrite !lower_append.
Qed.

Lemma occurs_trans (a b s : string) : occurs a b -> occurs b s -> occurs a s.
Proof.
  intros [p1 [q1 ->]] [p2 [q2 ->]].
  exists (p2 +:+ p1), (q1 +:+ q2). now rewrite !append_assoc.
Qed.

End TextFacts.

(** ** The classifier *)

Section ClassifierFacts.
Import Text Classifier.

Lemma any_in_spec (terms : list string) (s : string) :
  any_in terms s = true <-> exists term, In term terms /\ occurs term s.
Proof.
  unfold any_in. rewrite existsb_exists.
  split; intros [t [Hin H]]; exists t; split; auto; now apply contains_spec.
Qed.

Lemma any_in_indicated (terms : list string) (text : string) :
  any_in terms (lower text) = true <-> indicated terms text.
Proof. apply any_in_spec. Qed.

Lemma any_in_not_indicated (terms : list string) (text : string) :
  any_in terms (lower text) = false <-> ~ indicated terms text.
Proof.
  rewrite <- any_in_indicated. destruct (any_in terms (lower text)); split;
    congruence.
Qed.

(** The first test decides as soon as a credit-card term occurs. *)
Lemma detect_credit_card (text : string) :
  indicated credit_card_terms text -> detect_document_type text = CREDIT_CARD.
Proof.
  intros H. apply any_in_indicated in H.
  unfold detect_document_type; cbv zeta. now rewrite H.
Qed.

End ClassifierFacts.

Import Text Classifier.

(** C3.  [detect_document_type] is a function defined on every transcript;
    its value is one of the four concrete categories, never [AUTO]; it is
    [CREDIT_CARD] as soon as a credit-card term occurs in the lower-cased
    transcript, [LOAN] when none does and a loan term occurs, [BILL] when
    neither does and a bill term occurs, and [BANK_STATEMENT] when no term
    occurs at all. *)
Theorem detect_document_type_total_priority (text : string) :
  (exists c, detect_document_type text = c /\ c <> AUTO
     /\ forall c', detect_document_type text = c' -> c' = c)
  /\ (indicated credit_card_terms text ->
      detect_document_type text = CREDIT_CARD)
  /\ (~ indicated credit_card_terms text -> indicated loan_terms text ->
      detect_document_type text = LOAN)
  /\ (~ indicated credit_card_terms text -> ~ indicated loan_terms text ->
      indicated bill_terms text -> detect_document_type text = BILL)
  /\ (~ indicated credit_card_terms text -> ~ indicated loan_terms text ->
      ~ indicated bill_terms text ->
      detect_document_type text = BANK_STATEMENT).
Proof.
  unfold detect_document_type; cbv zeta.
  repeat split.
  - eexists; split; [reflexivity | split].
    + destruct (any_in credit_card_terms (lower text)),
        (any_in loan_terms (lower text)), (any_in bill_terms (lower text));
        discriminate.
    + intros c' <-. reflexivity.
  - intros H. apply any_in_indicated in H. now rewrite H.
  - intros Hc Hl. apply any_in_not_indicated in Hc. apply any_in_indicated in Hl.
    now rewrite Hc, Hl.
  - intros Hc Hl Hb. apply any_in_not_indicated in Hc, Hl.
    apply any_in_indicated in Hb. now rewrite Hc, Hl, Hb.
  - intros Hc Hl Hb. apply any_in_not_indicated in Hc, Hl, Hb.
    now rewrite Hc, Hl, Hb.
Qed.

(** The four cases of C3 on transcripts: the end-to-end example of the
    specification, a transcript with terms of all three sets, one with a
    loan and a bill term, one with a bill term, one with none. *)
Example detect_document_type_examples :
  detect_document_type "visa card ending 4421, minimum payment due $35"
    = CREDIT_CARD
  /\ detect_document_type "Mortgage LOAN: electric usage, APR 4%" = CREDIT_CARD
  /\ detect_document_type "Loan statement for the electric car" = LOAN
  /\ detect_document_type "Meter Reading 1234 kWh" = BILL
  /\ detect_document_type "Opening balance 100.00" = BANK_STATEMENT.
Proof. repeat split; reflexivity. Qed.

(** C9.  Matching is containment of the term in the lower-cased
    transcript, wherever it starts and ends: a transcript in which "april"
    occurs (in any case) is a [CREDIT_CARD] because "apr" occurs in it; the
    bill indicators fire only on a transcript in which one of the nine
    terms occurs in full, so "gasoline", which holds "gas" but not
    "gas bill", is not a [BILL]. *)
Theorem keyword_matching_is_containment :
  (forall terms text,
     any_in terms (lower text) = true
     <-> exists term, In term terms
           /\ exists pre post, lower text = pre +:+ term +:+ post)
  /\ (forall text, occurs "april" (lower text) ->
        detect_document_type text = CREDIT_CARD)
  /\ (forall pre post,
        detect_document_type (pre +:+ "April" +:+ post) = CREDIT_CARD
        /\ detect_document_type (pre +:+ "april" +:+ post) = CREDIT_CARD)
  /\ (forall text, detect_document_type text = BILL ->
        indicated bill_terms text)
  /\ any_in bill_terms (lower "gasoline") = false
  /\ detect_document_type "gasoline" = BANK_STATEMENT
  /\ detect_document_type "gasoline, see gas bill" = BILL.
Proof.
  assert (Hapr : forall text, occurs "april" (lower text) ->
                   detect_document_type text = CREDIT_CARD).
  { intros text H.
    apply detect_credit_card.
    exists "apr". split; [simpl; tauto |].
    apply occurs_trans with (b := "april"); [| exact H].
    exists EmptyString, "il". reflexivity. }
  split; [| split; [| split; [| split; [| repeat split]]]].
  - intros terms text. apply any_in_indicated.
  - exact Hapr.
  - intros pre post. split; apply Hapr.
    + apply (occurs_lower "April"). now exists pre, post.
    + apply (occurs_lower "april"). now exists pre, post.
  - intros text. unfold detect_document_type; cbv zeta.
    destruct (any_in credit_card_terms _); [discriminate |].
    destruct (any_in loan_terms _); [discriminate |].
    destruct (any_in bill_terms (lower text)) eqn:Hb; [| discriminate].
    intros _. now apply any_in_indicated.
Qed.

(** ** The truncation *)

Section TruncatorFacts.
Import Text Truncator.

Let sep : string := String nl EmptyString.

Lemma join_cons (l l2 : string) (ls : list string) :
  join sep (l :: l2 :: ls) = l +:+ String nl (join sep (l2 :: ls)).
Proof. reflexivity. Qed.

Lemma join_app (rs ls : list string) :
  ls <> [] -> join sep (rs ++ ls) = unlines rs +:+ join sep ls.
Proof.
  intros Hls. induction rs as [|r rs IH]; [reflexivity |].
  change ((r :: rs) ++ ls) with (r :: (rs ++ ls)).
  destruct (rs ++ ls) as [|x xs] eqn:E.
  - destruct rs; [simpl in E; contradiction | discriminate].
  - rewrite join_cons, IH. simpl. now rewrite append_assoc.
Qed.

Lemma unlines_app (rs ls : list string) :
  unlines (rs ++ ls) = unlines rs +:+ unlines ls.
Proof.
  induction rs as [|r rs IH]; [reflexivity |].
  simpl. now rewrite IH, append_assoc.
Qed.

Lemma unlines_join (ls : list string) :
  ls <> [] -> unlines ls = join sep ls +:+ sep.
Proof.
  intros Hls. induction ls as [|l ls IH]; [contradiction |].
  destruct ls as [|l2 ls].
  - reflexivity.
  - rewrite join_cons.
    change (unlines (l :: l2 :: ls)) with (l +:+ String nl (unlines (l2 :: ls))).
    rewrite IH by discriminate. simpl. now rewrite append_assoc.
Qed.

Lemma len_unlines_snoc (rs : list string) (l : string) :
  len (unlines (rs ++ [l])) = len (unlines rs) + len l + 1.
Proof.
  rewrite unlines_app, len_append. simpl. rewrite len_append.
  unfold len; simpl. lia.
Qed.

Lemma split_not_nil (s : string) : split nl s <> [].
Proof.
  induction s as [|c s IH]; simpl; [discriminate |].
  destruct (Ascii.eqb c nl); [discriminate |].
  destruct (split nl s); [contradiction | discriminate].
Qed.

(** Splitting at the line feeds and joining again gives the text back. *)
Lemma join_split (s : string) : join sep (split nl s) = s.
Proof.
  induction s as [|c s IH]; [reflexivity |].
  simpl. destruct (Ascii.eqb_spec c nl) as [->|Hc].
  - pose proof (split_not_nil s) as Hn.
    destruct (split nl s) as [|l ls]; [contradiction |].
    rewrite join_cons, IH. reflexivity.
  - pose proof (split_not_nil s) as Hn.
    destruct (split nl s) as [|l ls]; [contradiction |].
    destruct ls as [|l2 ls].
    + simpl in *. now rewrite IH.
    + rewrite join_cons in IH. rewrite join_cons.
      change (String c l +:+ String nl (join sep (l2 :: ls)))
        with (String c (l +:+ String nl (join sep (l2 :: ls)))).
      now rewrite IH.
Qed.

(** The loop either runs through all the lines, which then fit with their
    line feeds, or stops at the first line [l] that does not fit, with the
    lines [kept] before it and the marker. *)
Lemma truncate_loop_spec (max_chars : Z) (ls : list string) :
  forall rs cc, cc = len (unlines rs) ->
    (truncate_loop max_chars ls rs cc = rs ++ ls
     /\ (ls <> [] -> len (unlines (rs ++ ls)) <= max_chars))
    \/ (exists kept l rest,
          ls = kept ++ l :: rest
          /\ truncate_loop max_chars ls rs cc = (rs ++ kept) ++ [sentinel]
          /\ (kept <> [] -> len (unlines (rs ++ kept)) <= max_chars)
          /\ len (unlines (rs ++ kept)) + len l + 1 > max_chars).
Proof.
  induction ls as [|line rest IH]; intros rs cc Hcc.
  - left. split; [simpl; now rewrite app_nil_r | contradiction].
  - cbn [truncate_loop].
    destruct (cc + len line + 1 >? max_chars) eqn:Hcmp.
    + right. exists [], line, rest. rewrite app_nil_r.
      repeat split; [contradiction | lia].
    + assert (Hfit : len (unlines (rs ++ [line])) <= max_chars)
        by (rewrite len_unlines_snoc; lia).
      destruct (IH (rs ++ [line]) (cc + len line + 1)) as
        [[Heq Hall] | (kept & l & rest' & Hrest & Heq & Hkept & Hover)].
      * rewrite len_unlines_snoc. lia.
      * left. rewrite <- app_assoc in Heq, Hall. split; [exact Heq |].
        intros _. destruct rest; [exact Hfit | apply Hall; discriminate].
      * right. exists (line :: kept), l, rest'.
        rewrite <- !app_assoc in *. simpl in *.
        repeat split; [now rewrite Hrest | exact Heq | | exact Hover].
        intros _. destruct kept; [exact Hfit | apply Hkept; discriminate].
Qed.

(** What the function returns for a text over the budget. *)
Lemma truncate_over_budget (text : string) (max_chars : Z) :
  max_chars < len text ->
  exists kept l rest,
    split nl text = kept ++ l :: rest
    /\ truncate_text_for_context text max_chars = unlines kept +:+ sentinel
    /\ text = unlines kept +:+ join sep (l :: rest)
    /\ (kept <> [] -> len (unlines kept) <= max_chars).
Proof.
  intros Hover. unfold truncate_text_for_context.
  destruct (len text <=? max_chars) eqn:Hle; [lia |].
  destruct (truncate_loop_spec max_chars (split nl text) [] 0 eq_refl)
    as [[_ Hall] | (kept & l & rest & Hsplit & Heq & Hkept & _)].
  - exfalso. specialize (Hall (split_not_nil text)). simpl in Hall.
    rewrite unlines_join, join_split, len_append in Hall
      by apply split_not_nil.
    unfold len in Hall at 2; simpl in Hall. lia.
  - exists kept, l, rest. simpl in Heq, Hkept. fold sep. rewrite Heq.
    repeat split; [exact Hsplit | | | exact Hkept].
    + rewrite join_app by discriminate. reflexivity.
    + rewrite <- (join_split text) at 1. rewrite Hsplit.
      apply join_app. discriminate.
Qed.

End TruncatorFacts.

Import Truncator.

(** The length of the output: at most the budget and the 47 characters
    of the marker. *)
Lemma truncate_length_bound (text : string) (max_chars : Z) :
  len (truncate_text_for_context text max_chars) <= Z.max max_chars 0 + 47.
Proof.
  destruct (Z_le_gt_dec (len text) max_chars) as [Hle | Hgt].
  - unfold truncate_text_for_context.
    destruct (len text <=? max_chars) eqn:E; lia.
  - destruct (truncate_over_budget text max_chars) as
      (kept & l & rest & _ & Heq & _ & Hkept); [lia |].
    rewrite Heq, len_append. change (len sentinel) with 47.
    destruct kept as [|k kept].
    + simpl. unfold len; simpl. lia.
    + specialize (Hkept ltac:(discriminate)). lia.
Qed.

(** C2.  Under the budget of 10000 of the one call of the function, five
    hundred lines of twenty characters (10499 characters) come back as
    476 lines (9996 characters with their line feeds) and the marker:
    10043 characters, 43 more than the budget.  On the transcript of the
    specification's own example, ten lines of twenty characters under a
    budget of 100, the output has 131 characters; a single line of twenty
    characters under a budget of 10 gives the marker alone, 47
    characters. *)
Theorem truncate_exceeds_budget :
  len (lines_of_twenty 500) = 10499
  /\ len (truncate_text_for_context (lines_of_twenty 500) 10000) = 10043
  /\ ~ within_budget (lines_of_twenty 500) 10000
  /\ len ten_lines = 209
  /\ len (truncate_text_for_context ten_lines 100) = 131
  /\ ~ within_budget ten_lines 100
  /\ truncate_text_for_context "aaaaaaaaaaaaaaaaaaaa" 10 = sentinel
  /\ ~ within_budget "aaaaaaaaaaaaaaaaaaaa" 10.
Proof.
  unfold within_budget.
  repeat split; try (vm_compute; reflexivity); vm_compute; intros H; now apply H.
Qed.




(** ** The regular expressions *)

Section ReFacts.
Import Text Re.
Context {A : Type}.

Lemma drop_prefix (l s : string) :
  String.prefix l s = true -> s = l +:+ drop (String.length l) s.
Proof.
  revert s. induction l as [|a l IH]; intros s H; [now destruct s |].
  destruct s as [|b s]; simpl in H; [discriminate |].
  destruct (ascii_dec a b) as [->|]; [| discriminate].
  simpl. now rewrite <- IH.
Qed.

Lemma lit_inv (l : string) (k : cont A) (s : string) (r : A) :
  lit l k s = Some r -> exists rest, s = l +:+ rest /\ k rest = Some r.
Proof.
  unfold lit. destruct (String.prefix l s) eqn:E; [| discriminate].
  intros H. exists (drop (String.length l) s). split; [| exact H].
  now apply drop_prefix.
Qed.

Lemma opt_inv (m : cont A -> cont A) (k : cont A) (s : string) (r : A) :
  opt m k s = Some r -> m k s = Some r \/ k s = Some r.
Proof. unfold opt. destruct (m k s); intros H; [left | right]; exact H. Qed.

Lemma star_inv (c : ascii -> bool) (k : cont A) (s : string) (r : A) :
  star c k s = Some r ->
  exists w rest, s = w +:+ rest /\ all_of c w = true /\ k rest = Some r.
Proof.
  induction s as [|a s IH]; simpl.
  - intros H. now exists EmptyString, EmptyString.
  - destruct (c a) eqn:Ea.
    + destruct (star c k s) as [r'|] eqn:Es.
      * intros [= ->]. destruct (IH eq_refl) as (w & rest & -> & Hw & Hk).
        exists (String a w), rest. simpl. now rewrite Ea, Hw.
      * intros H. now exists EmptyString, (String a s).
    + intros H. now exists EmptyString, (String a s).
Qed.

Lemma lazy_group_inv (c : ascii -> bool) (k : string -> cont A) (s : string) :
  forall g r, lazy_group c k g s = Some r ->
    exists w rest, s = w +:+ rest /\ k (g +:+ w) rest = Some r.
Proof.
  induction s as [|a s IH]; intros g r; simpl.
  - destruct (k g EmptyString) eqn:Ek; [| discriminate].
    intros [= ->]. exists EmptyString, EmptyString. now rewrite (append_empty_r g).
  - destruct (k g (String a s)) eqn:Ek.
    + intros [= ->]. exists EmptyString, (String a s). now rewrite (append_empty_r g).
    + destruct (c a); [| discriminate]. intros H.
      destruct (IH _ _ H) as (w & rest & -> & Hk).
      exists (String a w), rest. split; [reflexivity |].
      now rewrite append_assoc in Hk.
Qed.


Lemma search_inv (m : cont A) (s : string) (r : A) :
  search m s = Some r -> exists pre rest, s = pre +:+ rest /\ m rest = Some r.
Proof.
  induction s as [|a s IH]; simpl.
  - destruct (m EmptyString) eqn:Em; [| discriminate].
    intros [= ->]. now exists EmptyString, EmptyString.
  - destruct (m (String a s)) eqn:Em.
    + intros [= ->]. now exists EmptyString, (String a s).
    + intros H. destruct (IH H) as (pre & rest & -> & Hm).
      now exists (String a pre), rest.
Qed.

End ReFacts.

Section ExtractorFacts.
Import Text Py Re Extractor.

(** What [search_fence] finds is group 1 of a fenced block of the text. *)
Lemma search_fence_sound (text contents : string) :
  search_fence text = Some contents -> fenced text contents.
Proof.
  unfold search_fence. intros H.
  apply search_inv in H as (pre & r0 & -> & H).
  apply lit_inv in H as (r1 & -> & H).
  assert (Htag : exists tag r2, r1 = tag +:+ r2
            /\ (tag = EmptyString \/ tag = "json")
            /\ star is_space
                 (lazy_group any
                    (fun g => star is_space (lit "```" (fun _ => Some g)))
                    EmptyString) r2 = Some contents).
  { apply opt_inv in H as [H | H].
    - apply lit_inv in H as (r2 & -> & H). exists "json", r2. auto.
    - exists EmptyString, r1. auto. }
  destruct Htag as (tag & r2 & -> & Htag & H'). clear H.
  apply star_inv in H' as (w1 & r3 & -> & Hw1 & H).
  apply lazy_group_inv in H as (g & r4 & -> & H).
  apply star_inv in H as (w2 & r5 & -> & Hw2 & H).
  apply lit_inv in H as (post & -> & [= <-]).
  exists pre, tag, w1, w2, post. auto.
Qed.


(** The layers on the text the function works on, in order. *)
Lemma parse_or_scan_layers (rt : Runtime) (t : string) :
  (forall v, json_loads rt (strip t) = Some v -> parse_or_scan rt t = Ok v)
  /\ (json_loads rt (strip t) = None ->
      (forall m v, search_object t = Some m -> json_loads rt m = Some v ->
         parse_or_scan rt t = Ok v)
      /\ ((forall m, search_object t = Some m -> json_loads rt m = None) ->
          (forall m v, search_array t = Some m -> json_loads rt m = Some v ->
             parse_or_scan rt t = Ok v)
          /\ ((forall m, search_array t = Some m -> json_loads rt m = None) ->
              parse_or_scan rt t = Raise ValueError))).
Proof.
  unfold parse_or_scan. split; [intros v -> ; reflexivity |].
  intros ->. simpl. split.
  - intros m v -> ->. reflexivity.
  - intros Hobj.
    assert (Hskip : forall X : outcome pyval,
              match search_object t with
              | Some m => match json_loads rt m with
                          | Some v => Ok v
                          | None => X
                          end
              | None => X
              end = X).
    { intros X. destruct (search_object t) as [m|]; [| reflexivity].
      now rewrite (Hobj m eq_refl). }
    rewrite Hskip. split.
    + intros m v -> ->. reflexivity.
    + intros Harr. destruct (search_array t) as [m|]; [| reflexivity].
      now rewrite (Harr m eq_refl).
Qed.

End ExtractorFacts.

Import Py Re Extractor.

(** The claim C4 as it is stated fails on a text whose fenced block does
    not parse and is followed by an array: the function scans the
    contents of the block, finds nothing and raises, where the entire text
    holds the array.  It fails as well on a JSON string that holds a
    fenced block: the entire text parses, and the function raises. *)
Lemma fence_contents_replace_the_text :
  search_fence "```oops``` [1]" = Some "oops"
  /\ extract_json_from_response Reference.runtime "```oops``` [1]"
     = Raise ValueError
  /\ parse_or_scan Reference.runtime "```oops``` [1]" = Ok (PList [PInt 1])
  /\ ~ fence_failure_falls_back_to_text Reference.runtime "```oops``` [1]"
  /\ ~ fence_failure_falls_back_to_text Reference.runtime
         (Reference.quoted "```x```").
Proof.
  repeat split; try (vm_compute; reflexivity).
  - intros H. specialize (H "oops" eq_refl eq_refl). vm_compute in H. discriminate.
  - intros H. specialize (H "x" eq_refl eq_refl). vm_compute in H. discriminate.
Qed.

(** C4.  The layers are tried in order and the first success wins, on
    the text [t] the function works on: the contents of the fenced block
    when the text has one, the text itself only when it has none.  The
    trimmed [t] is parsed; when that fails the object pattern is searched
    in [t], then the array pattern; when nothing parses the function
    raises [ValueError]. *)
Theorem extract_json_layers_on_fence_contents (rt : Runtime) (text : string) :
  exists t,
    match search_fence text with
    | Some contents => fenced text contents /\ t = contents
    | None => t = text
    end
    /\ extract_json_from_response rt text = parse_or_scan rt t
    /\ (forall v, json_loads rt (strip t) = Some v ->
          extract_json_from_response rt text = Ok v)
    /\ (json_loads rt (strip t) = None ->
        (forall m v, search_object t = Some m -> json_loads rt m = Some v ->
           extract_json_from_response rt text = Ok v)
        /\ ((forall m, search_object t = Some m -> json_loads rt m = None) ->
            (forall m v, search_array t = Some m -> json_loads rt m = Some v ->
               extract_json_from_response rt text = Ok v)
            /\ ((forall m, search_array t = Some m -> json_loads rt m = None) ->
                extract_json_from_response rt text = Raise ValueError))).
Proof.
  unfold extract_json_from_response.
  destruct (search_fence text) as [contents|] eqn:Hf.
  - exists contents. split; [split; [now apply search_fence_sound | reflexivity] |].
    split; [reflexivity | apply parse_or_scan_layers].
  - exists text. split; [reflexivity |].
    split; [reflexivity | apply parse_or_scan_layers].
Qed.

(** The three wrappings of the specification's own list, and a text with
    no JSON in it, on the reference runtime. *)
Example extract_json_examples :
  extract_json_from_response Reference.runtime "{}" = Ok (PDict ∅)
  /\ extract_json_from_response Reference.runtime "Here you are:
```json
[1, 2]
```
Anything else?" = Ok (PList [PInt 1; PInt 2])
  /\ extract_json_from_response Reference.runtime
       "The result is [1, 2] as asked." = Ok (PList [PInt 1; PInt 2])
  /\ extract_json_from_response Reference.runtime "no JSON here"
     = Raise ValueError.
Proof. repeat split; vm_compute; reflexivity. Qed.

(** ** The aggregation of the stream *)

Section InferenceFacts.
Import Py Inference.
Variable rt : Runtime.






End InferenceFacts.

Import Inference Samples.



(** What the aggregation does not absorb: a status other than 200 raises
    the 502, and a line that parses to something that is not an object
    raises out of the loop. *)
Example call_ollama_raises :
  call_ollama Reference.runtime 500 "boom" sample_stream
  = Raise (HTTPException 502 "LLM service error: boom")
  /\ call_ollama Reference.runtime 200 EmptyString ["[1, 2]"]
     = Raise AttributeError.
Proof. split; vm_compute; reflexivity. Qed.

(** ** The conversion to records *)

Import Normalizer.

Ltac unfold_steps H :=
  unfold bind, lift, ret, generate_uuid, today, get_current_month,
    append_transaction, append_bill, append_debt, update, tick in H;
  cbn beta iota in H; cbn [result calls] in H.

Ltac case_steps H :=
  repeat match type of H with
         | context [match ?x with _ => _ end] =>
             let E := fresh "E" in
             destruct x eqn:E; cbn beta iota in H; cbn [result calls] in H
         end.

Section NormalizerFacts.
Variable rt : Runtime.

Lemma appended_refl (r : ParseResult) : appended r r [] [] [].
Proof. unfold appended. now rewrite !app_nil_r. Qed.

Lemma appended_trans (r1 r2 r3 : ParseResult) ts bs ds ts' bs' ds' :
  appended r1 r2 ts bs ds -> appended r2 r3 ts' bs' ds' ->
  appended r1 r3 (ts ++ ts') (bs ++ bs') (ds ++ ds').
Proof.
  unfold appended. intros (-> & -> & -> & -> & -> & -> & ->).
  intros (-> & -> & -> & -> & -> & -> & ->).
  now rewrite !app_assoc.
Qed.

(** A record that is built has the fields it was given. *)
Lemma new_Transaction_ok id description amount type date category t :
  new_Transaction rt id description amount type date category = Ok t ->
  Transaction.id t = id /\ Transaction.amount t = amount.
Proof.
  unfold new_Transaction.
  destruct (field_str rt description), (field_str rt type),
    (field_str rt date), (field_opt_str rt category); try discriminate.
  intros [= <-]. split; reflexivity.
Qed.


Lemma new_Bill_ok id name amount dueDay isPaid billMonth b :
  new_Bill rt id name amount dueDay isPaid billMonth = Ok b ->
  Bill.isPaid b = isPaid.
Proof.
  unfold new_Bill.
  destruct (field_str rt name), (field_str rt billMonth); try discriminate.
  now intros [= <-].
Qed.

Lemma new_Debt_ok id company balance lastUpdated isRecurring paymentDueDay
    minimumPayment (frequency : string) d :
  new_Debt rt id company balance lastUpdated isRecurring paymentDueDay
    (PStr frequency) minimumPayment = Ok d ->
  Debt.paymentFrequency d = Some frequency.
Proof.
  unfold new_Debt.
  destruct (field_str rt company), (field_opt_int rt paymentDueDay),
    (field_opt_float rt minimumPayment); simpl; try discriminate.
  now intros [= <-].
Qed.

Lemma convert_transaction_ok (tx : pyval) (s s' : St) :
  convert_transaction rt tx s = (Ok tt, s') ->
  exists t a,
    py_get tx "amount" (PInt 0) = Ok a
    /\ py_float rt a = Ok (Transaction.amount t)
    /\ appended (result s) (result s') [t] [] []
    /\ calls s' = (2 + calls s)%nat.
Proof.
  unfold convert_transaction. intros H. unfold_steps H. case_steps H.
  all: try discriminate.
  injection H as <-.
  match goal with
  | E : new_Transaction _ _ _ _ _ _ _ = Ok ?t, F : py_float _ ?a = Ok _ |- _ =>
      apply new_Transaction_ok in E as [_ Ea]; exists t, a;
      rewrite Ea; repeat split; try assumption
  end.
  all: cbn; now rewrite ?app_nil_r.
Qed.

(** An entry that fails leaves the result as it was. *)
Lemma convert_transaction_raise (tx : pyval) (s s' : St) (e : exn) :
  convert_transaction rt tx s = (Raise e, s') -> result s' = result s.
Proof.
  unfold convert_transaction. intros H. unfold_steps H. case_steps H.
  all: try discriminate.
  all: now injection H as _ <-.
Qed.

Lemma convert_bill_spec (parsed_data : pyval) (s s' : St) (o : outcome unit) :
  convert_bill rt parsed_data s = (o, s') ->
  match o with
  | Ok _ =>
      exists bs, appended (result s) (result s') [] bs []
        /\ Forall (fun b => Bill.isPaid b = false) bs
  | Raise _ => result s' = result s
  end.
Proof.
  unfold convert_bill. intros H. unfold_steps H. case_steps H.
  all: try discriminate.
  all: injection H as <- <-; try reflexivity.
  - match goal with E : new_Bill _ _ _ _ _ _ _ = Ok ?b |- _ =>
      apply new_Bill_ok in E; exists [b] end.
    split; [| now repeat constructor].
    unfold appended; cbn. now rewrite !app_nil_r.
  - exists []. split; [apply appended_refl | constructor].
Qed.

Lemma convert_debt_spec (parsed_data : pyval) (company : string)
    (fixed : bool) (s s' : St) (o : outcome unit) :
  convert_debt rt parsed_data company fixed s = (o, s') ->
  match o with
  | Ok _ =>
      exists ds, appended (result s) (result s') [] [] ds
        /\ (fixed = true ->
            Forall (fun d => Debt.paymentFrequency d = Some "monthly") ds)
  | Raise _ => result s' = result s
  end.
Proof.
  unfold convert_debt. intros H. destruct fixed.
  - unfold_steps H. case_steps H.
    all: try discriminate.
    all: injection H as <- <-; try reflexivity.
    + match goal with E : new_Debt _ _ _ _ _ _ _ _ _ = Ok ?d |- _ =>
        apply new_Debt_ok in E; exists [d] end.
      split; [| now repeat constructor].
      unfold appended; cbn. now rewrite !app_nil_r.
    + exists []. split; [apply appended_refl | constructor].
  - unfold_steps H. case_steps H.
    all: try discriminate.
    all: injection H as <- <-; try reflexivity.
    + eexists [_]. split; [| discriminate].
      unfold appended; cbn. now rewrite !app_nil_r.
    + exists []. split; [apply appended_refl | discriminate].
Qed.


(** The loop over the entries stops at the first entry that fails: the
    entries before it, [k] of them, have been converted, one transaction
    each, and the result is what the loop over these [k] entries gives. *)
Lemma for_each_transactions (items : list pyval) :
  forall s o s',
    for_each (convert_transaction rt) items s = (o, s') ->
    exists k ts s'',
      (k <= length items)%nat
      /\ for_each (convert_transaction rt) (take k items) s = (Ok tt, s'')
      /\ result s' = result s''
      /\ appended (result s) (result s') ts [] []
      /\ Forall2 (made_from rt) (take k items) ts
      /\ match o with
         | Ok _ => k = length items
         | Raise _ => (k < length items)%nat
         end.
Proof.
  induction items as [|tx items IH]; intros s o s' H.
  - injection H as <- <-. exists 0%nat, [], s.
    split_and!; auto using appended_refl.
  - cbn [for_each] in H. unfold bind in H.
    destruct (convert_transaction rt tx s) as [[[]|e] s1] eqn:Htx.
    + destruct (IH _ _ _ H) as (k & ts & s'' & Hk & Hrun & Hres & Happ & Hmade & Ho).
      destruct (convert_transaction_ok _ _ _ Htx) as (t & a & _ & _ & Ht & _).
      exists (S k), (t :: ts), s''. split_and!.
      * simpl. lia.
      * cbn [take for_each]. unfold bind. now rewrite Htx.
      * exact Hres.
      * apply (appended_trans _ _ _ [t] [] [] ts [] [] Ht Happ).
      * cbn [take]. constructor; [now exists s, s1 | exact Hmade].
      * destruct o; simpl; lia.
    + injection H as <- <-. exists 0%nat, [], s.
      apply convert_transaction_raise in Htx.
      split_and!; simpl; try lia; auto.
      rewrite Htx. apply appended_refl.
Qed.

Lemma convert_transactions_spec (parsed_data : pyval) (s s' : St)
    (o : outcome unit) :
  convert_transactions rt parsed_data s = (o, s') ->
  exists k ts s'',
    (k <= length (entries parsed_data))%nat
    /\ for_each (convert_transaction rt) (take k (entries parsed_data)) s
       = (Ok tt, s'')
    /\ result s' = result s''
    /\ appended (result s) (result s') ts [] []
    /\ Forall2 (made_from rt) (take k (entries parsed_data)) ts
    /\ match o with
       | Ok _ => k = length (entries parsed_data)
       | Raise _ => True
       end.
Proof.
  unfold convert_transactions, entries, bind, lift. intros H.
  destruct (py_get parsed_data "transactions" (PList [])) as [txs|e].
  - destruct (py_iter txs) as [items|e].
    + destruct (for_each_transactions _ _ _ _ H)
        as (k & ts & s'' & Hk & Hrun & Hres & Happ & Hmade & Ho).
      exists k, ts, s''. split_and!; auto. destruct o; auto.
    + injection H as <- <-. exists 0%nat, [], s.
      split_and!; auto using appended_refl.
  - injection H as <- <-. exists 0%nat, [], s.
    split_and!; auto using appended_refl.
Qed.

(** A payload that holds only transactions has no debt and no bill. *)
Lemma entries_only_transactions (items : list pyval) :
  entries (only_transactions items) = items.
Proof. unfold entries, only_transactions. simpl. now rewrite lookup_singleton_eq. Qed.

Lemma convert_transactions_only (items : list pyval) (s : St) :
  convert_transactions rt (only_transactions items) s
  = for_each (convert_transaction rt) items s.
Proof.
  unfold convert_transactions, only_transactions, bind, lift. simpl.
  now rewrite lookup_singleton_eq.
Qed.

Lemma convert_debt_only (items : list pyval) (company : string) (fixed : bool)
    (s : St) :
  convert_debt rt (only_transactions items) company fixed s = (Ok tt, s).
Proof.
  unfold convert_debt, only_transactions, bind, lift. simpl.
  rewrite lookup_singleton_ne by discriminate. reflexivity.
Qed.

Lemma convert_bill_only (items : list pyval) (s : St) :
  convert_bill rt (only_transactions items) s = (Ok tt, s).
Proof.
  unfold convert_bill, only_transactions, bind, lift. simpl.
  rewrite lookup_singleton_ne by discriminate. reflexivity.
Qed.

End NormalizerFacts.

Import Samples.

(** The claim C1 as it is stated fails on a bank statement whose second
    transaction has a [null] amount: [float(None)] raises, and the first
    transaction is in the result already. *)
Lemma failure_keeps_first_transaction :
  ~ failure_leaves_collections_empty Reference.runtime 0 second_amount_null
      BANK_STATEMENT.
Proof.
  intros H.
  destruct (convert_body Reference.runtime second_amount_null BANK_STATEMENT
              (start 0 BANK_STATEMENT)) as [[u|e] s] eqn:E;
    [vm_compute in E; discriminate |].
  destruct (H e s E) as (_ & _ & Ht & _).
  vm_compute in Ht. discriminate.
Qed.

(** What the function returns there. *)
Example failure_keeps_first_transaction_result :
  let r := convert_to_driftmoney_format Reference.runtime 0 second_amount_null
             BANK_STATEMENT in
  success r = false
  /\ error r = Some "Conversion error: TypeError"
  /\ map Transaction.description (transactions r) = ["Coffee"].
Proof. vm_compute. repeat split. Qed.

(** C1.  [convert_to_driftmoney_format] returns a result on every payload
    and category.  When the mapping raises, the result has [success]
    false, the error set, no bill and no debt, and the transactions of the
    entries converted before the exception, [k] of them: it is the result
    of the successful conversion of these [k] entries, marked as failed.
    Under [BILL], [LOAN] and [AUTO] there is none. *)
Theorem convert_failure_keeps_converted_entries (rt : Runtime) (n : nat)
    (parsed_data : pyval) (doc_type : DocumentType) :
  let r := convert_to_driftmoney_format rt n parsed_data doc_type in
  (exists s,
     convert_body rt parsed_data doc_type (start n doc_type) = (Ok tt, s)
     /\ success r = true /\ error r = None)
  \/ (exists e s k,
        convert_body rt parsed_data doc_type (start n doc_type) = (Raise e, s)
        /\ (k <= length (entries parsed_data))%nat
        /\ let r' := convert_to_driftmoney_format rt n
                       (only_transactions (take k (entries parsed_data)))
                       doc_type in
           r = conversion_error rt e r'
           /\ success r = false
           /\ error r = Some ("Conversion error: " +:+ exn_str rt e)
           /\ bills r = [] /\ debts r = []
           /\ transactions r = transactions r'
           /\ length (transactions r) = k
           /\ success r' = true
           /\ (doc_type = BILL \/ doc_type = LOAN \/ doc_type = AUTO -> k = 0%nat)).
Proof.
  cbv zeta. unfold convert_to_driftmoney_format.
  destruct (convert_body rt parsed_data doc_type (start n doc_type))
    as [[[]|e] s] eqn:Hbody.
  - left. exists s. split; [reflexivity |].
    assert (Happ : exists ts bs ds,
              appended (result (start n doc_type)) (result s) ts bs ds).
    { destruct doc_type; cbn [convert_body] in Hbody.
      - apply convert_transactions_spec in Hbody
          as (k & ts & s'' & _ & _ & _ & Happ & _). eauto.
      - unfold bind in Hbody.
        destruct (convert_transactions rt parsed_data (start n CREDIT_CARD))
          as [[[]|e] s1] eqn:Htx; [| discriminate].
        apply convert_transactions_spec in Htx
          as (k & ts & s'' & _ & _ & _ & Happ & _).
        apply convert_debt_spec in Hbody as (ds & Hds & _).
        pose proof (appended_trans _ _ _ _ _ _ _ _ _ Happ Hds). eauto.
      - apply convert_bill_spec in Hbody as (bs & Hbs & _). eauto.
      - apply convert_debt_spec in Hbody as (ds & Hds & _). eauto.
      - injection Hbody as <-. eauto using appended_refl. }
    destruct Happ as (ts & bs & ds & _ & _ & _ & Hs & _ & _ & He).
    now rewrite Hs, He.
  - right.
    assert (Hk : exists k s'',
              (k <= length (entries parsed_data))%nat
              /\ convert_body rt (only_transactions (take k (entries parsed_data)))
                   doc_type (start n doc_type) = (Ok tt, s'')
              /\ result s = result s''
              /\ bills (result s) = [] /\ debts (result s) = []
              /\ length (transactions (result s)) = k
              /\ (doc_type = BILL \/ doc_type = LOAN \/ doc_type = AUTO -> k = 0%nat)).
    { assert (Hloop : forall dt s1 o,
                convert_transactions rt parsed_data (start n dt) = (o, s1) ->
                exists k s'',
                  (k <= length (entries parsed_data))%nat
                  /\ for_each (convert_transaction rt)
                       (take k (entries parsed_data)) (start n dt) = (Ok tt, s'')
                  /\ result s1 = result s''
                  /\ bills (result s1) = [] /\ debts (result s1) = []
                  /\ length (transactions (result s1)) = k
                  /\ match o with
                     | Ok _ => k = length (entries parsed_data)
                     | Raise _ => True
                     end).
      { intros dt s1 o Htx.
        apply convert_transactions_spec in Htx
          as (k & ts & s'' & Hk & Hrun & Hres & Happ & Hmade & Ho).
        exists k, s''. destruct Happ as (Ht & Hb & Hd & _).
        split_and!; auto.
        rewrite Ht. simpl. apply Forall2_length in Hmade.
        rewrite <- Hmade, length_take. lia. }
      destruct doc_type; cbn [convert_body] in Hbody |- *.
      - destruct (Hloop _ _ _ Hbody) as (k & s'' & Hk & Hrun & Hres & Hb & Hd & Hl & _).
        exists k, s''. rewrite convert_transactions_only.
        split_and!; auto. intros [|[|]]; discriminate.
      - unfold bind in Hbody.
        destruct (convert_transactions rt parsed_data (start n CREDIT_CARD))
          as [[[]|e1] s1] eqn:Htx.
        + destruct (Hloop _ _ _ Htx) as (k & s'' & Hk & Hrun & Hres & Hb & Hd & Hl & _).
          apply convert_debt_spec in Hbody.
          exists k, s''. unfold bind.
          rewrite convert_transactions_only, Hrun, convert_debt_only, Hbody.
          split_and!; auto. intros [|[|]]; discriminate.
        + injection Hbody as <- <-.
          destruct (Hloop _ _ _ Htx) as (k & s'' & Hk & Hrun & Hres & Hb & Hd & Hl & _).
          exists k, s''. unfold bind.
          rewrite convert_transactions_only, Hrun, convert_debt_only.
          split_and!; auto. intros [|[|]]; discriminate.
      - apply convert_bill_spec in Hbody.
        exists 0%nat, (start n BILL). rewrite convert_bill_only, Hbody.
        split_and!; auto. lia.
      - apply convert_debt_spec in Hbody.
        exists 0%nat, (start n LOAN). rewrite convert_debt_only, Hbody.
        split_and!; auto. lia.
      - discriminate. }
    destruct Hk as (k & s'' & Hk & Hrun & Hres & Hb & Hd & Hl & Hzero).
    exists e, s, k. rewrite Hrun, <- Hres. cbn.
    split_and!; auto.
    assert (Happ : exists ts bs ds,
              appended (result (start n doc_type)) (result s'') ts bs ds).
    { destruct doc_type; cbn [convert_body] in Hrun.
      - apply convert_transactions_spec in Hrun
          as (k' & ts & s3 & _ & _ & _ & Happ & _). eauto.
      - unfold bind in Hrun. rewrite convert_transactions_only in Hrun.
        destruct (for_each (convert_transaction rt)
                    (take k (entries parsed_data)) (start n CREDIT_CARD))
          as [[[]|e1] s1] eqn:Htx; [| discriminate].
        apply for_each_transactions in Htx
          as (k' & ts & s3 & _ & _ & _ & Happ & _).
        rewrite convert_debt_only in Hrun. injection Hrun as <-. eauto.
      - rewrite convert_bill_only in Hrun. injection Hrun as <-.
        eauto using appended_refl.
      - rewrite convert_debt_only in Hrun. injection Hrun as <-.
        eauto using appended_refl.
      - injection Hrun as <-. eauto using appended_refl. }
    destruct Happ as (ts & bs & ds & _ & _ & _ & Hs & _).
    now rewrite Hres, Hs.
Qed.

(** C6.  Whatever the payload holds, every bill of a [BILL] conversion
    has [isPaid] false and every debt of a [CREDIT_CARD] conversion has
    the payment frequency "monthly". *)
Theorem bill_unpaid_and_card_debt_monthly (rt : Runtime) (n : nat)
    (parsed_data : pyval) :
  Forall (fun b => Bill.isPaid b = false)
    (bills (convert_to_driftmoney_format rt n parsed_data BILL))
  /\ Forall (fun d => Debt.paymentFrequency d = Some "monthly")
       (debts (convert_to_driftmoney_format rt n parsed_data CREDIT_CARD)).
Proof.
  unfold convert_to_driftmoney_format. split.
  - cbn [convert_body].
    destruct (convert_bill rt parsed_data (start n BILL)) as [[[]|e] s] eqn:Hb;
      apply convert_bill_spec in Hb.
    + destruct Hb as (bs & (_ & -> & _) & Hbs). exact Hbs.
    + cbn. rewrite Hb. constructor.
  - cbn [convert_body]. unfold bind.
    destruct (convert_transactions rt parsed_data (start n CREDIT_CARD))
      as [[[]|e] s1] eqn:Htx;
      apply convert_transactions_spec in Htx
        as (k & ts & s'' & _ & _ & _ & (_ & _ & Hd1 & _) & _).
    + destruct (convert_debt rt parsed_data "Credit Card" true s1)
        as [[[]|e] s] eqn:Hd; apply convert_debt_spec in Hd.
      * destruct Hd as (ds & (_ & _ & -> & _) & Hds). rewrite Hd1.
        apply Hds. reflexivity.
      * cbn. rewrite Hd, Hd1. constructor.
    + cbn. rewrite Hd1. constructor.
Qed.

(** The samples: the bill whose payload says it is paid comes out unpaid,
    the debt whose payload says "weekly" comes out monthly (and keeps
    "weekly" under [LOAN]). *)
Example bill_unpaid_and_card_debt_monthly_examples :
  map Bill.isPaid
    (bills (convert_to_driftmoney_format Reference.runtime 0 electric_bill BILL))
  = [false]
  /\ map Debt.paymentFrequency
       (debts (convert_to_driftmoney_format Reference.runtime 0 card_statement
                 CREDIT_CARD))
     = [Some "monthly"]
  /\ map Debt.paymentFrequency
       (debts (convert_to_driftmoney_format Reference.runtime 0 card_statement
                 LOAN))
     = [Some "weekly"].
Proof. vm_compute. repeat split. Qed.

(** C8.  Under [BILL] and [LOAN], a payload object in which the key of
    the substructure is absent, or holds an empty object (or anything
    else that tests false, [null] for one), converts to the result as it
    was created: success, no error, every collection empty. *)
Theorem absent_substructure_is_success (rt : Runtime) (n : nat)
    (d : gmap string pyval) (doc_type : DocumentType) (key : string) :
  substructure_key doc_type = Some key ->
  (d !! key = None \/ exists v, d !! key = Some v /\ truthy v = false) ->
  let r := convert_to_driftmoney_format rt n (PDict d) doc_type in
  r = fresh_result doc_type
  /\ success r = true /\ error r = None
  /\ transactions r = [] /\ bills r = [] /\ debts r = [].
Proof.
  intros Hkey Habsent.
  assert (Hget : exists v, py_get (PDict d) key (PDict ∅) = Ok v
                           /\ truthy v = false).
  { simpl. destruct Habsent as [-> | (v & -> & Hv)]; eauto. }
  destruct Hget as (v & Hget & Hv).
  assert (Hr : convert_to_driftmoney_format rt n (PDict d) doc_type
               = fresh_result doc_type).
  { unfold convert_to_driftmoney_format.
    destruct doc_type; try discriminate; injection Hkey as <-;
      cbn [convert_body]; unfold convert_bill, convert_debt, bind, lift;
      rewrite Hget, Hv; reflexivity. }
  cbv zeta. rewrite Hr. now split_and!.
Qed.

(** The payloads at which C8 applies: no key at all, an empty object and
    [null] under the key. *)
Lemma absent_substructure_is_success_witness :
  convert_to_driftmoney_format Reference.runtime 0 (PDict ∅) BILL
  = fresh_result BILL
  /\ convert_to_driftmoney_format Reference.runtime 0
       (PDict {[ "debt" := PDict ∅ ]}) LOAN
     = fresh_result LOAN
  /\ convert_to_driftmoney_format Reference.runtime 0
       (PDict {[ "bill" := PNone; "debt" := PStr "x" ]}) BILL
     = fresh_result BILL.
Proof.
  split_and!.
  - apply (absent_substructure_is_success Reference.runtime 0 ∅ BILL "bill");
      [reflexivity | left; reflexivity].
  - apply (absent_substructure_is_success Reference.runtime 0
             {[ "debt" := PDict ∅ ]} LOAN "debt");
      [reflexivity | right; exists (PDict ∅); split; reflexivity].
  - apply (absent_substructure_is_success Reference.runtime 0
             {[ "bill" := PNone; "debt" := PStr "x" ]} BILL "bill");
      [reflexivity | right; exists PNone; split; reflexivity].
Defined.




(** ** The endpoints of the API service *)

Section ServiceFacts.
Import Text Py Classifier Truncator Extractor Inference Normalizer Service.

Lemma lstrip_empty (p : ascii -> bool) (s : string) :
  lstrip_of p s = EmptyString <-> all_of p s = true.
Proof.
  induction s as [|a s IH]; simpl; [tauto |].
  destruct (p a); simpl; [exact IH | split; discriminate].
Qed.

Lemma rstrip_empty (p : ascii -> bool) (s : string) :
  rstrip_of p s = EmptyString <-> all_of p s = true.
Proof.
  induction s as [|a s IH]; simpl; [tauto |].
  destruct (rstrip_of p s) eqn:E.
  - destruct (p a); simpl; [| split; discriminate].
    split; intros _; [now apply IH | reflexivity].
  - split; [discriminate |]. intros H. apply andb_true_iff in H as [_ H].
    apply IH in H. discriminate.
Qed.

Lemma all_of_lstrip (p : ascii -> bool) (s : string) :
  all_of p (lstrip_of p s) = all_of p s.
Proof.
  induction s as [|a s IH]; simpl; [reflexivity |].
  destruct (p a) eqn:E; simpl; [exact IH | now rewrite E].
Qed.

(** A text strips to nothing exactly when it is all white space. *)
Lemma strip_empty (s : string) :
  String.eqb (strip s) EmptyString = all_of is_space s.
Proof.
  unfold strip, strip_of.
  destruct (all_of is_space s) eqn:E.
  - apply String.eqb_eq, rstrip_empty. now rewrite all_of_lstrip.
  - apply String.eqb_neq. intros H. apply rstrip_empty in H.
    rewrite all_of_lstrip in H. congruence.
Qed.

End ServiceFacts.

Section PipelineFacts.
Import Text Py Classifier Truncator Extractor Inference Normalizer Service.
Variable rt : Runtime.

Lemma detect_not_auto (text : string) : detect_document_type text <> AUTO.
Proof.
  unfold detect_document_type; cbv zeta.
  destruct (any_in credit_card_terms (lower text)); [discriminate |].
  destruct (any_in loan_terms (lower text)); [discriminate |].
  destruct (any_in bill_terms (lower text)); discriminate.
Qed.

Lemma resolve_not_auto (document_type : DocumentType) (text : string) :
  resolve document_type text <> AUTO.
Proof.
  destruct document_type; simpl; try discriminate. apply detect_not_auto.
Qed.

Lemma value_auto (d : DocumentType) : DocumentType_value d = "auto" -> d = AUTO.
Proof. destruct d; simpl; intros H; try discriminate; reflexivity. Qed.

(** The fields of a result that no step of the conversion touches, and
    the two flags, which go together. *)
Lemma convert_fixed_fields (n : nat) (parsed_data : pyval)
    (doc_type : DocumentType) :
  let r := convert_to_driftmoney_format rt n parsed_data doc_type in
  document_type r = DocumentType_value doc_type
  /\ raw_text r = None
  /\ (success r = true <-> error r = None).
Proof.
  cbv zeta. unfold convert_to_driftmoney_format.
  assert (Happ : forall o s,
            convert_body rt parsed_data doc_type (start n doc_type) = (o, s) ->
            exists ts bs ds,
              appended (result (start n doc_type)) (result s) ts bs ds).
  { intros o s Hbody. destruct doc_type; cbn [convert_body] in Hbody.
    - apply convert_transactions_spec in Hbody
        as (k & ts & s'' & _ & _ & _ & Happ & _). eauto.
    - unfold bind in Hbody.
      destruct (convert_transactions rt parsed_data (start n CREDIT_CARD))
        as [[[]|e] s1] eqn:Htx;
        apply convert_transactions_spec in Htx
          as (k & ts & s'' & _ & _ & _ & Happ & _).
      + destruct o; apply convert_debt_spec in Hbody.
        * destruct Hbody as (ds & Hds & _).
          pose proof (appended_trans _ _ _ _ _ _ _ _ _ Happ Hds). eauto.
        * rewrite Hbody. eauto.
      + injection Hbody as <- <-. eauto.
    - destruct o; apply convert_bill_spec in Hbody.
      + destruct Hbody as (bs & Hbs & _). eauto.
      + rewrite Hbody. eauto using appended_refl.
    - destruct o; apply convert_debt_spec in Hbody.
      + destruct Hbody as (ds & Hds & _). eauto.
      + rewrite Hbody. eauto using appended_refl.
    - injection Hbody as <- <-. eauto using appended_refl. }
  destruct (convert_body rt parsed_data doc_type (start n doc_type))
    as [[[]|e] s] eqn:Hbody;
    destruct (Happ _ _ eq_refl) as (ts & bs & ds & _ & _ & _ & Hs & Hd & Hr & He);
    cbn; rewrite ?Hs, ?Hd, ?Hr, ?He; cbn; split_and!; try reflexivity;
    split; try reflexivity; discriminate.
Qed.

End PipelineFacts.

Import Text Py Classifier Truncator Extractor Inference Normalizer Service.
Import Scenarios.

(** X1.  What [parse_document] raises: the 502 that wraps a failure of
    the OCR call, the 400 of a transcript that is all white space, the
    500 that wraps a failure of the template, of the inference call or
    of the extraction of JSON, or the [AttributeError] of a transcript
    that is not a string.  Nothing the conversion raises leaves it. *)
Theorem parse_document_raises_only (rt : Runtime) (w : World) (n : nat)
    (filename content : string) (document_type : DocumentType)
    (include_raw_text : bool) (e : exn) :
  parse_document rt w n filename content document_type include_raw_text
  = Raise e ->
  (exists e0,
     call_surya_ocr rt w content filename = Raise e0
     /\ e = HTTPException 502 ("OCR failed: " +:+ exn_str rt e0))
  \/ (exists ocr_text,
        call_surya_ocr rt w content filename = Ok (PStr ocr_text)
        /\ all_of is_space ocr_text = true
        /\ e = HTTPException 400 "No text extracted from document")
  \/ (exists ocr_text e0,
        call_surya_ocr rt w content filename = Ok (PStr ocr_text)
        /\ all_of is_space ocr_text = false
        /\ llm_parse rt w (resolve document_type ocr_text) ocr_text = Raise e0
        /\ e = HTTPException 500 ("LLM parsing failed: " +:+ exn_str rt e0))
  \/ (exists v,
        call_surya_ocr rt w content filename = Ok v
        /\ (forall ocr_text, v <> PStr ocr_text)
        /\ e = AttributeError).
Proof.
  unfold parse_document.
  destruct (call_surya_ocr rt w content filename) as [v|e0].
  - destruct v as [| | | |ocr_text| |];
      try (intros [= <-]; do 3 right; eexists; split_and!;
           [reflexivity | discriminate | reflexivity]).
    rewrite strip_empty.
    destruct (all_of is_space ocr_text) eqn:Hblank.
    + intros [= <-]. right; left. eauto.
    + cbv zeta.
      destruct (llm_parse rt w (resolve document_type ocr_text) ocr_text)
        as [pd|e0] eqn:Hllm; [discriminate |].
      intros [= <-]. right; right; left. eauto 8.
  - intros [= <-]. left. eauto.
Qed.

(** A world whose inference service is overloaded: the 500 of X1. *)
Lemma parse_document_raises_only_witness :
  exists e0,
    llm_parse runtime (world (reads "Rent 950.00") overloaded) BANK_STATEMENT
      "Rent 950.00" = Raise e0
    /\ parse_document runtime (world (reads "Rent 950.00") overloaded) 0
         "scan.pdf" "bytes" AUTO false
       = Raise (HTTPException 500 ("LLM parsing failed: " +:+ exn_str runtime e0)).
Proof.
  destruct (parse_document_raises_only runtime
              (world (reads "Rent 950.00") overloaded) 0 "scan.pdf" "bytes"
              AUTO false
              (HTTPException 500
                 "LLM parsing failed: 502: LLM service error: busy") eq_refl)
    as [(e0 & H & _) | [(t & _ & _ & H) | [(t & e0 & Hocr & _ & Hllm & He) | (v & _ & _ & H)]]];
    try discriminate.
  vm_compute in Hocr. injection Hocr as <-.
  exists e0. split; [exact Hllm |]. rewrite <- He. reflexivity.
Defined.

(** X2.  The OCR stage decides first, whatever the category asked for,
    the flag and the inference service: an OCR request that raises, a
    status other than 200 and a body that is not JSON give a 502 (the
    502 the call raises for the status is wrapped in it); a reply in
    which "text" is missing, or is all white space, gives the 400. *)
Theorem ocr_stage_decides_first (rt : Runtime) (w : World) (n : nat)
    (filename content : string) (document_type : DocumentType)
    (include_raw_text : bool) :
  let run :=
    parse_document rt w n filename content document_type include_raw_text in
  (forall e0, ocr_service w filename content = Raise e0 ->
     run = Raise (HTTPException 502 ("OCR failed: " +:+ exn_str rt e0)))
  /\ (forall r, ocr_service w filename content = Ok r -> status r <> 200 ->
        run = Raise (HTTPException 502
                       ("OCR failed: " +:+
                        exn_str rt (HTTPException 502
                                      ("OCR service error: " +:+ body r)))))
  /\ (forall r, ocr_service w filename content = Ok r -> status r = 200 ->
        json_loads rt (body r) = None ->
        run = Raise (HTTPException 502 ("OCR failed: " +:+ exn_str rt ValueError)))
  /\ (forall r d, ocr_service w filename content = Ok r -> status r = 200 ->
        json_loads rt (body r) = Some (PDict d) ->
        d !! "text" = None
        \/ (exists t, d !! "text" = Some (PStr t) /\ all_of is_space t = true) ->
        run = Raise (HTTPException 400 "No text extracted from document")).
Proof.
  cbv zeta. unfold parse_document, call_surya_ocr. split_and!.
  - intros e0 ->. reflexivity.
  - intros r -> Hs. apply Z.eqb_neq in Hs. now rewrite Hs.
  - intros r -> Hs Hj. apply Z.eqb_eq in Hs. now rewrite Hs, Hj.
  - intros r d -> Hs Hj Ht. apply Z.eqb_eq in Hs. rewrite Hs, Hj. simpl.
    destruct Ht as [-> | (t & -> & Ht)].
    + reflexivity.
    + now rewrite strip_empty, Ht.
Qed.

(** The extraction raises nothing but its [ValueError]. *)
Lemma extract_json_raises_value_error (rt : Runtime) (text : string) (e : exn) :
  extract_json_from_response rt text = Raise e -> e = ValueError.
Proof.
  unfold extract_json_from_response, parse_or_scan. cbn [scan].
  destruct (json_loads rt _); [discriminate |].
  repeat match goal with
         | |- context [match ?x with _ => _ end] => destruct x
         end; congruence.
Qed.

(** X3.  Once the transcript is there, every failure before the
    conversion is a 500: a category with no template file, an inference
    request that raises, an inference service that answers with a status
    other than 200 (the 502 [call_ollama] raises for it is wrapped in the
    500), and an answer with no JSON in it. *)
Theorem inference_failure_is_500 (rt : Runtime) (w : World) (n : nat)
    (filename content ocr_text : string) (document_type : DocumentType)
    (include_raw_text : bool) :
  call_surya_ocr rt w content filename = Ok (PStr ocr_text) ->
  all_of is_space ocr_text = false ->
  let run :=
    parse_document rt w n filename content document_type include_raw_text in
  let category := resolve document_type ocr_text in
  let failed e :=
    Raise (HTTPException 500 ("LLM parsing failed: " +:+ exn_str rt e)) in
  (prompt_files w (DocumentType_value category +:+ ".txt") = None ->
   run = failed ValueError)
  /\ (forall template,
        prompt_files w (DocumentType_value category +:+ ".txt") = Some template ->
        (forall e0,
           llm_service w (full_prompt template ocr_text) = Raise e0 ->
           run = failed e0)
        /\ (forall r lines,
              llm_service w (full_prompt template ocr_text) = Ok (r, lines) ->
              status r <> 200 ->
              run = failed (HTTPException 502
                              ("LLM service error: " +:+ body r)))
        /\ (forall r lines llm_response e0,
              llm_service w (full_prompt template ocr_text) = Ok (r, lines) ->
              status r = 200 ->
              aggregate rt lines EmptyString = Ok llm_response ->
              extract_json_from_response rt llm_response = Raise e0 ->
              run = failed ValueError)).
Proof.
  intros Hocr Hblank. cbv zeta. unfold parse_document.
  rewrite Hocr, strip_empty, Hblank. unfold llm_parse, load_prompt.
  split.
  - intros ->. reflexivity.
  - intros template ->. unfold request_ollama, call_ollama. split_and!.
    + intros e0 ->. reflexivity.
    + intros r lines -> Hs. apply Z.eqb_neq in Hs. now rewrite Hs.
    + intros r lines llm_response e0 -> Hs Hagg Hx. apply Z.eqb_eq in Hs.
      rewrite Hs. simpl. rewrite Hagg, Hx.
      now rewrite (extract_json_raises_value_error _ _ _ Hx).
Qed.

(** The overloaded inference service again: its 503 comes back as a 500
    that quotes the 502. *)
Lemma inference_failure_is_500_witness :
  parse_document runtime (world (reads "Rent 950.00") overloaded) 0
    "scan.pdf" "bytes" AUTO false
  = Raise (HTTPException 500
             "LLM parsing failed: 502: LLM service error: busy").
Proof.
  destruct (inference_failure_is_500 runtime
              (world (reads "Rent 950.00") overloaded) 0 "scan.pdf" "bytes"
              "Rent 950.00" AUTO false eq_refl eq_refl) as [_ H].
  destruct (H "Extract the records as JSON." eq_refl) as (_ & H503 & _).
  rewrite (H503 {| status := 503; body := "busy" |} [] eq_refl);
    [reflexivity | discriminate].
Defined.

(** X4.  When the transcript is there and the answer of the inference
    service holds JSON, [parse_document] returns, also when the
    conversion fails: the result is that of the conversion, success flag
    and error included, for the category asked for or, under [AUTO],
    detected; its category is never "auto", and its raw text is the
    transcript when asked for and absent otherwise. *)
Theorem conversion_failure_is_returned (rt : Runtime) (w : World) (n : nat)
    (filename content ocr_text : string) (requested : DocumentType)
    (include_raw_text : bool) (parsed_data : pyval) :
  call_surya_ocr rt w content filename = Ok (PStr ocr_text) ->
  all_of is_space ocr_text = false ->
  llm_parse rt w (resolve requested ocr_text) ocr_text = Ok parsed_data ->
  exists r,
    parse_document rt w n filename content requested include_raw_text
    = Ok r
    /\ let converted :=
         convert_to_driftmoney_format rt n parsed_data
           (resolve requested ocr_text) in
       success r = success converted
       /\ error r = error converted
       /\ transactions r = transactions converted
       /\ bills r = bills converted
       /\ debts r = debts converted
       /\ document_type r = DocumentType_value (resolve requested ocr_text)
       /\ document_type r <> "auto"
       /\ (requested <> AUTO ->
           document_type r = DocumentType_value requested)
       /\ raw_text r = if include_raw_text then Some ocr_text else None.
Proof.
  intros Hocr Hblank Hllm. unfold parse_document.
  rewrite Hocr, strip_empty, Hblank. cbv zeta. rewrite Hllm.
  destruct (convert_fixed_fields rt n parsed_data
              (resolve requested ocr_text)) as (Hd & Hr & _).
  eexists. split; [reflexivity |].
  assert (Hdt : document_type
                  (if include_raw_text
                   then set_raw_text
                          (convert_to_driftmoney_format rt n parsed_data
                             (resolve requested ocr_text)) ocr_text
                   else convert_to_driftmoney_format rt n parsed_data
                          (resolve requested ocr_text))
                = DocumentType_value (resolve requested ocr_text))
    by (destruct include_raw_text; exact Hd).
  split_and!; try (destruct include_raw_text; reflexivity); try exact Hdt.
  - rewrite Hdt. intros Hauto. apply value_auto in Hauto.
    now apply resolve_not_auto in Hauto.
  - intros Hne. rewrite Hdt. destruct requested; try reflexivity.
    now contradiction Hne.
  - destruct include_raw_text; [reflexivity | exact Hr].
Qed.

(** A card statement whose answer is an array: the conversion fails on
    it, and the endpoint returns the failed result. *)
Lemma conversion_failure_is_returned_witness :
  exists r,
    parse_document runtime
      (world (reads "Visa card ending 4421") (answers "[1]")) 0
      "scan.pdf" "bytes" AUTO true = Ok r
    /\ success r = false
    /\ document_type r = "credit_card"
    /\ raw_text r = Some "Visa card ending 4421".
Proof.
  destruct (conversion_failure_is_returned runtime
              (world (reads "Visa card ending 4421") (answers "[1]")) 0
              "scan.pdf" "bytes" "Visa card ending 4421" AUTO true
              (PList [PInt 1]) eq_refl eq_refl eq_refl)
    as (r & Hrun & Hs & _ & _ & _ & _ & Hd & _ & _ & Hr).
  exists r. split; [exact Hrun |]. split_and!.
  - rewrite Hs. reflexivity.
  - rewrite Hd. reflexivity.
  - exact Hr.
Defined.

(** The inference call and the step around it read the world only
    through its templates and its answer to the prompt. *)
Lemma llm_parse_same_world (rt : Runtime) (w w' : World)
    (category : DocumentType) (ocr_text : string) :
  prompt_files w = prompt_files w' ->
  (forall template,
     llm_service w (full_prompt template ocr_text)
     = llm_service w' (full_prompt template ocr_text)) ->
  llm_parse rt w category ocr_text = llm_parse rt w' category ocr_text.
Proof.
  intros Hp Hllm. unfold llm_parse, load_prompt, request_ollama.
  rewrite Hp. destruct (prompt_files w' _); [| reflexivity]. now rewrite Hllm.
Qed.

(** X5.  The prompt starts with the template and carries at most 10049
    characters more: an empty line and the transcript cut to the budget,
    marker included; a transcript of at most 10000 characters is carried
    whole.  The inference service is asked nothing else: two worlds with
    the same OCR service and templates, and the same answers to the
    prompts of this form, give the same outcome. *)
Theorem prompt_is_bounded (rt : Runtime) (template ocr_text : string) :
  is_prefix template (full_prompt template ocr_text)
  /\ len (full_prompt template ocr_text) <= len template + 10049
  /\ (len ocr_text <= 10000 ->
      full_prompt template ocr_text
      = template +:+ String nl (String nl EmptyString) +:+ ocr_text)
  /\ (forall w w' n filename content requested include_raw_text,
        ocr_service w = ocr_service w' ->
        prompt_files w = prompt_files w' ->
        (forall template' text,
           llm_service w (full_prompt template' text)
           = llm_service w' (full_prompt template' text)) ->
        parse_document rt w n filename content requested include_raw_text
        = parse_document rt w' n filename content requested include_raw_text).
Proof.
  split_and!.
  - now eexists.
  - unfold full_prompt. rewrite !len_append.
    pose proof (truncate_length_bound ocr_text 10000) as Hb.
    change (len (String nl (String nl EmptyString))) with 2. lia.
  - intros Hfit. unfold full_prompt, truncate_text_for_context.
    destruct (len ocr_text <=? 10000) eqn:E; [reflexivity | lia].
  - intros w w' n filename content requested include_raw_text Hocr Hp Hllm.
    unfold parse_document, call_surya_ocr. rewrite Hocr.
    destruct (ocr_service w' filename content) as [r|e]; [| reflexivity].
    destruct (negb (status r =? 200)); [reflexivity |].
    destruct (json_loads rt (body r)) as [v|]; [| reflexivity].
    destruct (py_get v "text" (PStr EmptyString)) as [[| | | |t| |]|e];
      try reflexivity.
    destruct (String.eqb (strip t) EmptyString); [reflexivity |].
    cbv zeta. now rewrite (llm_parse_same_world rt w w' _ t Hp (fun x => Hllm x t)).
Qed.

Lemma split_length (s : string) :
  length (split nl s) = S (count_char nl s).
Proof.
  induction s as [|c s IH]; [reflexivity |].
  simpl. destruct (Ascii.eqb c nl); simpl; [now rewrite IH |].
  destruct (split nl s); simpl in *; [discriminate | exact IH].
Qed.

Lemma count_char_le (c : ascii) (s : string) :
  (count_char c s <= String.length s)%nat.
Proof.
  induction s as [|a s IH]; simpl; [lia |]. destruct (Ascii.eqb a c); lia.
Qed.

(** X6.  [ocr_only] wraps every failure in a 500, the 502 of the OCR
    call included.  What it returns carries the transcript with its
    length, one more line than the transcript has line feeds, and the
    detected category, never "auto"; an empty transcript is returned like
    any other, as one empty line. *)
Theorem ocr_only_outcomes (rt : Runtime) (w : World) (filename content : string) :
  (forall e, ocr_only rt w filename content = Raise e ->
     exists e0, e = HTTPException 500 ("OCR failed: " +:+ exn_str rt e0))
  /\ (forall r, ocr_only rt w filename content = Ok r ->
        call_surya_ocr rt w content filename = Ok (PStr (OcrOnly.text r))
        /\ OcrOnly.success r = true
        /\ OcrOnly.filename r = filename
        /\ OcrOnly.char_count r = len (OcrOnly.text r)
        /\ OcrOnly.line_count r
           = 1 + Z.of_nat (count_char nl (OcrOnly.text r))
        /\ 1 <= OcrOnly.line_count r <= OcrOnly.char_count r + 1
        /\ OcrOnly.detected_type r
           = DocumentType_value (detect_document_type (OcrOnly.text r))
        /\ OcrOnly.detected_type r <> "auto")
  /\ (call_surya_ocr rt w content filename = Ok (PStr EmptyString) ->
      ocr_only rt w filename content
      = Ok (OcrOnly.mk true filename "bank_statement" EmptyString 0 1)).
Proof.
  unfold ocr_only. split_and!.
  - intros e. destruct (call_surya_ocr rt w content filename) as [[]|e0];
      intros [= <-]; eauto.
  - intros r. destruct (call_surya_ocr rt w content filename) as [[| | | |t| |]|e0];
      try discriminate.
    intros [= <-]. cbn. rewrite split_length.
    pose proof (count_char_le nl t) as Hc. unfold len.
    split_and!; try reflexivity; try lia.
    intros H. apply value_auto in H. now apply detect_not_auto in H.
  - intros ->. reflexivity.
Qed.

(** X7.  [list_models] raises nothing but its 502, which also wraps a
    body that is not JSON; when the inference service answers with a
    status other than 200 it raises nothing and returns [None]. *)
Theorem list_models_outcomes (rt : Runtime) (w : World) :
  (forall e, list_models rt w = Raise e ->
     exists e0,
       e = HTTPException 502 ("Cannot reach Ollama: " +:+ exn_str rt e0)
       /\ (llm_tags w = Raise e0
           \/ exists r, llm_tags w = Ok r /\ status r = 200
                        /\ json_loads rt (body r) = None /\ e0 = ValueError))
  /\ (forall r, llm_tags w = Ok r -> status r <> 200 ->
        list_models rt w = Ok PNone)
  /\ (forall v, list_models rt w = Ok v ->
        exists r, llm_tags w = Ok r
          /\ (status r = 200 /\ json_loads rt (body r) = Some v
              \/ status r <> 200 /\ v = PNone)).
Proof.
  unfold list_models. split_and!.
  - intros e. destruct (llm_tags w) as [r|e0].
    + destruct (status r =? 200) eqn:Hs; [| discriminate].
      destruct (json_loads rt (body r)) eqn:Hj; [discriminate |].
      intros [= <-]. apply Z.eqb_eq in Hs. eauto 10.
    + intros [= <-]. eauto.
  - intros r -> Hs. apply Z.eqb_neq in Hs. now rewrite Hs.
  - intros v. destruct (llm_tags w) as [r|e0]; [| discriminate].
    destruct (status r =? 200) eqn:Hs.
    + destruct (json_loads rt (body r)) eqn:Hj; [| discriminate].
      intros [= <-]. apply Z.eqb_eq in Hs. eauto 10.
    + intros [= <-]. apply Z.eqb_neq in Hs. eauto 10.
Qed.

(** ** More on the extraction of JSON *)

Section StripFacts.








End StripFacts.

Section ReComplete.
Context {A : Type}.

Lemma drop_append (l rest : string) : drop (String.length l) (l +:+ rest) = rest.
Proof. induction l as [|a l IH]; simpl; [now destruct rest | exact IH]. Qed.

Lemma lit_append (l : string) (k : cont A) (rest : string) :
  lit l k (l +:+ rest) = k rest.
Proof.
  unfold lit.
  assert (H : String.prefix l (l +:+ rest) = true)
    by (apply prefix_spec; now exists rest).
  now rewrite H, drop_append.
Qed.

Lemma opt_found (m : cont A -> cont A) (k : cont A) (s : string) (r : A) :
  k s = Some r -> exists r', opt m k s = Some r'.
Proof. intros H. unfold opt. destruct (m k s); [eauto | rewrite H; eauto]. Qed.

Lemma star_found (c : ascii -> bool) (k : cont A) (s : string) (r : A) :
  k s = Some r -> exists r', star c k s = Some r'.
Proof.
  intros H. destruct s as [|a s]; simpl; [eauto |].
  destruct (c a); [| eauto]. destruct (star c k s); eauto.
Qed.

Lemma lazy_group_found (c : ascii -> bool) (k : string -> cont A)
    (w rest : string) :
  forall g r, all_of c w = true -> k (g +:+ w) rest = Some r ->
    exists r', lazy_group c k g (w +:+ rest) = Some r'.
Proof.
  induction w as [|a w IH]; intros g r Hw Hk.
  - rewrite (append_empty_r g) in Hk. simpl.
    destruct rest; simpl; rewrite Hk; eauto.
  - simpl in Hw. apply andb_true_iff in Hw as [Ha Hw].
    change (String a w +:+ rest) with (String a (w +:+ rest)).
    cbn [lazy_group]. destruct (k g (String a (w +:+ rest))); [eauto |].
    rewrite Ha. apply (IH _ r Hw). now rewrite append_assoc.
Qed.

Lemma search_found (m : cont A) (pre rest : string) (r : A) :
  m rest = Some r -> exists r', search m (pre +:+ rest) = Some r'.
Proof.
  intros H. induction pre as [|a pre IH].
  - simpl. destruct rest; simpl; rewrite H; eauto.
  - change (String a pre +:+ rest) with (String a (pre +:+ rest)).
    cbn [search]. destruct (m (String a (pre +:+ rest))); [eauto | exact IH].
Qed.

End ReComplete.

Lemma all_of_any (w : string) : all_of any w = true.
Proof. induction w as [|a w IH]; [reflexivity | exact IH]. Qed.


(** X16.  A fenced block is found exactly when the reply holds two
    separate runs of three backticks: no language tag, line feed or
    content between them is needed, and a tag other than [json] does not
    prevent it. *)
Theorem fence_found_iff (text : string) :
  (exists contents, search_fence text = Some contents)
  <-> (exists pre mid post,
         text = pre +:+ "```" +:+ mid +:+ "```" +:+ post).
Proof.
  split.
  - intros [contents H]. apply search_fence_sound in H
      as (pre & tag & w1 & w2 & post & -> & _).
    exists pre, (tag +:+ w1 +:+ contents +:+ w2), post.
    now rewrite !append_assoc.
  - intros (pre & mid & post & ->). unfold search_fence.
    destruct (star_found is_space
                (lit "```" (fun _ => Some (EmptyString +:+ mid)))
                ("```" +:+ post) (EmptyString +:+ mid)) as [r0 Hr0];
      [now rewrite lit_append |].
    destruct (lazy_group_found any
                (fun g => star is_space (lit "```" (fun _ => Some g)))
                mid ("```" +:+ post) EmptyString r0 (all_of_any mid) Hr0)
      as [r Hr].
    destruct (star_found is_space _ _ _ Hr) as [r1 Hr1].
    destruct (opt_found (lit "json") _ _ _ Hr1) as [r2 Hr2].
    eapply search_found. rewrite lit_append. exact Hr2.
Qed.

(** ** More on the inference call *)

Section InferenceFailures.
Variable rt : Runtime.


End InferenceFailures.



(** ** More on the conversion *)

Section ShapeFacts.
Variable rt : Runtime.

Lemma new_Bill_defaults id name amount dueDay isPaid billMonth b :
  new_Bill rt id name amount dueDay isPaid billMonth = Ok b ->
  Bill.syncStatus b = "dirty" /\ Bill.id b = id.
Proof.
  unfold new_Bill.
  destruct (field_str rt name), (field_str rt billMonth); try discriminate.
  now intros [= <-].
Qed.

Lemma new_Debt_defaults id company balance lastUpdated isRecurring
    paymentDueDay paymentFrequency minimumPayment d :
  new_Debt rt id company balance lastUpdated isRecurring paymentDueDay
    paymentFrequency minimumPayment = Ok d ->
  Debt.isRecurring d = isRecurring /\ Debt.notes d = None
  /\ Debt.syncStatus d = "dirty" /\ Debt.lastUpdated d = lastUpdated.
Proof.
  unfold new_Debt.
  destruct (field_str rt company), (field_opt_int rt paymentDueDay),
    (field_opt_str rt paymentFrequency),
    (field_opt_float rt minimumPayment); try discriminate.
  now intros [= <-].
Qed.

(** The bill step appends at most one bill, and none when it raises. *)
Lemma convert_bill_shape (parsed_data : pyval) (s s' : St) (o : outcome unit) :
  convert_bill rt parsed_data s = (o, s') ->
  exists bs,
    appended (result s) (result s') [] bs []
    /\ (length bs <= 1)%nat
    /\ Forall (fun b => Bill.syncStatus b = "dirty") bs
    /\ match o with Ok _ => True | Raise _ => bs = [] end.
Proof.
  unfold convert_bill. intros H. unfold_steps H. case_steps H.
  all: try discriminate.
  all: injection H as <- <-.
  all: try (exists []; split_and!;
            [apply appended_refl | simpl; lia | constructor | reflexivity]).
  match goal with E : new_Bill _ _ _ _ _ _ _ = Ok ?b |- _ =>
    apply new_Bill_defaults in E as [E _]; exists [b] end.
  split_and!; [| simpl; lia | now repeat constructor | exact I].
  unfold appended; cbn. now rewrite !app_nil_r.
Qed.

(** The debt step likewise. *)
Lemma convert_debt_shape (parsed_data : pyval) (company : string)
    (fixed : bool) (s s' : St) (o : outcome unit) :
  convert_debt rt parsed_data company fixed s = (o, s') ->
  exists ds,
    appended (result s) (result s') [] [] ds
    /\ (length ds <= 1)%nat
    /\ Forall (fun d => Debt.isRecurring d = true /\ Debt.notes d = None
                         /\ Debt.syncStatus d = "dirty") ds
    /\ match o with Ok _ => True | Raise _ => ds = [] end.
Proof.
  unfold convert_debt. intros H. destruct fixed.
  all: unfold_steps H; case_steps H.
  all: try discriminate.
  all: injection H as <- <-.
  all: try (exists []; split_and!;
            [apply appended_refl | simpl; lia | constructor | reflexivity]).
  all: match goal with E : new_Debt _ _ _ _ _ _ _ _ _ = Ok ?d |- _ =>
         apply new_Debt_defaults in E as (? & ? & ? & _); exists [d] end.
  all: split_and!; [| simpl; lia | now repeat constructor | exact I].
  all: unfold appended; cbn; now rewrite !app_nil_r.
Qed.

(** The loop appends at most one transaction for each entry. *)
Lemma convert_transactions_shape (parsed_data : pyval) (s s' : St)
    (o : outcome unit) :
  convert_transactions rt parsed_data s = (o, s') ->
  exists ts,
    appended (result s) (result s') ts [] []
    /\ (length ts <= length (entries parsed_data))%nat.
Proof.
  intros H. apply convert_transactions_spec in H
    as (k & ts & s'' & Hk & _ & _ & Happ & Hmade & _).
  exists ts. split; [exact Happ |].
  apply Forall2_length in Hmade. rewrite <- Hmade, length_take. lia.
Qed.

(** An entry that is not an object, or whose amount is [null], makes the
    body of the loop raise. *)
Lemma convert_transaction_rejects (tx : pyval) (s : St) :
  (forall d, tx <> PDict d)
  \/ (exists d, tx = PDict d /\ d !! "amount" = Some PNone) ->
  exists e s', convert_transaction rt tx s = (Raise e, s').
Proof.
  intros [Hno | (d & -> & Ha)]; unfold convert_transaction.
  - destruct tx as [| | | | | |d]; try (now eexists _, _).
    now contradiction (Hno d).
  - unfold bind, lift, generate_uuid. cbn [py_get]. rewrite Ha.
    now eexists _, _.
Qed.

Lemma for_each_rejects (tx : pyval) (after before : list pyval) :
  (forall d, tx <> PDict d)
  \/ (exists d, tx = PDict d /\ d !! "amount" = Some PNone) ->
  forall s, exists e s' ts,
    for_each (convert_transaction rt) (before ++ tx :: after) s = (Raise e, s')
    /\ appended (result s) (result s') ts [] []
    /\ (length ts <= length before)%nat.
Proof.
  intros Hbad. induction before as [|x before IH]; intros s.
  - destruct (convert_transaction_rejects tx s Hbad) as (e & s' & H).
    exists e, s', []. cbn [app for_each]. unfold bind. rewrite H.
    split_and!; [reflexivity | | simpl; lia].
    apply convert_transaction_raise in H. rewrite H. apply appended_refl.
  - cbn [app for_each]. unfold bind.
    destruct (convert_transaction rt x s) as [[[]|e] s1] eqn:Hx.
    + destruct (IH s1) as (e & s' & ts & Hrun & Happ & Hlen).
      destruct (convert_transaction_ok _ _ _ _ Hx) as (t & a & _ & _ & Ht & _).
      exists e, s', (t :: ts). split_and!; [exact Hrun | | simpl; lia].
      apply (appended_trans _ _ _ [t] [] [] ts [] [] Ht Happ).
    + exists e, s1, []. split_and!; [reflexivity | | simpl; lia].
      apply convert_transaction_raise in Hx. rewrite Hx. apply appended_refl.
Qed.

Lemma convert_transactions_entries (parsed_data : pyval) (s : St) :
  entries parsed_data <> [] ->
  convert_transactions rt parsed_data s
  = for_each (convert_transaction rt) (entries parsed_data) s.
Proof.
  unfold convert_transactions, entries, bind, lift.
  destruct (py_get parsed_data "transactions" (PList [])) as [txs|e];
    [| now intros H].
  destruct (py_iter txs); [reflexivity | now intros H].
Qed.

End ShapeFacts.

(** X18.  The shape of every result, failed or not: at most one
    transaction for each entry of the payload, at most one bill and at
    most one debt; a bank statement has transactions only, a card
    statement no bill, a bill no transaction and no debt, a loan no
    transaction and no bill.  A debt is recurring, without notes, and it
    and a bill are marked "dirty"; a result that holds a bill or a debt
    is a success. *)
Theorem convert_result_shape (rt : Runtime) (n : nat) (parsed_data : pyval)
    (doc_type : DocumentType) :
  let r := convert_to_driftmoney_format rt n parsed_data doc_type in
  (length (transactions r) <= length (entries parsed_data))%nat
  /\ (length (bills r) <= 1)%nat
  /\ (length (debts r) <= 1)%nat
  /\ match doc_type with
     | BANK_STATEMENT => bills r = [] /\ debts r = []
     | CREDIT_CARD => bills r = []
     | BILL => transactions r = [] /\ debts r = []
     | LOAN => transactions r = [] /\ bills r = []
     | AUTO => transactions r = [] /\ bills r = [] /\ debts r = []
     end
  /\ Forall (fun b => Bill.syncStatus b = "dirty") (bills r)
  /\ Forall (fun d => Debt.isRecurring d = true /\ Debt.notes d = None
                      /\ Debt.syncStatus d = "dirty") (debts r)
  /\ (bills r <> [] \/ debts r <> [] -> success r = true /\ error r = None).
Proof.
  cbv zeta. unfold convert_to_driftmoney_format.
  assert (Hshape : forall o s,
            convert_body rt parsed_data doc_type (start n doc_type) = (o, s) ->
            exists ts bs ds,
              appended (result (start n doc_type)) (result s) ts bs ds
              /\ (length ts <= length (entries parsed_data))%nat
              /\ (length bs <= 1)%nat /\ (length ds <= 1)%nat
              /\ match doc_type with
                 | BANK_STATEMENT => bs = [] /\ ds = []
                 | CREDIT_CARD => bs = []
                 | BILL => ts = [] /\ ds = []
                 | LOAN => ts = [] /\ bs = []
                 | AUTO => ts = [] /\ bs = [] /\ ds = []
                 end
              /\ Forall (fun b => Bill.syncStatus b = "dirty") bs /\ Forall (fun d => Debt.isRecurring d = true /\ Debt.notes d = None
                         /\ Debt.syncStatus d = "dirty") ds
              /\ match o with Ok _ => True | Raise _ => bs = [] /\ ds = [] end).
  { intros o s Hbody. destruct doc_type; cbn [convert_body] in Hbody.
    - apply convert_transactions_shape in Hbody as (ts & Happ & Hlen).
      exists ts, [], []. split_and!; auto; try (simpl; lia).
      now destruct o.
    - unfold bind in Hbody.
      destruct (convert_transactions rt parsed_data (start n CREDIT_CARD))
        as [[[]|e] s1] eqn:Htx;
        apply convert_transactions_shape in Htx as (ts & Happ & Hlen).
      + apply convert_debt_shape in Hbody as (ds & Hds & Hone & Hkept & Ho).
        pose proof (appended_trans _ _ _ _ _ _ _ _ _ Happ Hds) as Hall.
        rewrite app_nil_r in Hall.
        exists ts, [], ds. split_and!; auto; try (simpl; lia).
        destruct o; [exact I | now split].
      + injection Hbody as <- <-.
        exists ts, [], []. split_and!; auto; simpl; lia.
    - apply convert_bill_shape in Hbody as (bs & Hbs & Hone & Hkept & Ho).
      exists [], bs, []. split_and!; auto; try (simpl; lia).
      destruct o; [exact I | now split].
    - apply convert_debt_shape in Hbody as (ds & Hds & Hone & Hkept & Ho).
      exists [], [], ds. split_and!; auto; try (simpl; lia).
      destruct o; [exact I | now split].
    - injection Hbody as <- <-.
      exists [], [], []. split_and!; auto using appended_refl; simpl; lia. }
  destruct (convert_body rt parsed_data doc_type (start n doc_type))
    as [[[]|e] s] eqn:Hbody;
    destruct (Hshape _ _ eq_refl)
      as (ts & bs & ds & (Ht & Hb & Hd & Hs & _ & _ & He) & Hlen & Hbs & Hds
          & Hcat & Hbk & Hdk & Ho);
    cbn in Ht, Hb, Hd, Hs, He; cbn [conversion_error transactions bills debts
                                    success error];
    rewrite ?Ht, ?Hb, ?Hd, ?Hs, ?He.
  - split_and!; auto.
  - destruct Ho as [-> ->]. split_and!; auto.
    intros [H | H]; now contradiction H.
Qed.


(** X19.  Only a missing amount is taken as zero: on a bank or card
    statement an entry whose amount is [null], or an entry that is not
    an object, fails the conversion wherever it stands among the
    entries.  The result keeps at most the transactions of the entries
    before it, and no debt. *)
Theorem null_amount_fails_conversion (rt : Runtime) (n : nat)
    (parsed_data : pyval) (doc_type : DocumentType)
    (before after : list pyval) (tx : pyval) :
  doc_type = BANK_STATEMENT \/ doc_type = CREDIT_CARD ->
  entries parsed_data = before ++ tx :: after ->
  (forall d, tx <> PDict d)
  \/ (exists d, tx = PDict d /\ d !! "amount" = Some PNone) ->
  let r := convert_to_driftmoney_format rt n parsed_data doc_type in
  success r = false
  /\ error r <> None
  /\ (length (transactions r) <= length before)%nat
  /\ bills r = [] /\ debts r = [].
Proof.
  intros Hcat Hentries Hbad. cbv zeta. unfold convert_to_driftmoney_format.
  assert (Hne : entries parsed_data <> [])
    by (rewrite Hentries; now destruct before).
  destruct (for_each_rejects rt tx after before Hbad (start n doc_type))
    as (e & s' & ts & Hrun & (Ht & Hb & Hd & _) & Hlen).
  assert (Hbody : convert_body rt parsed_data doc_type (start n doc_type)
                  = (Raise e, s')).
  { destruct Hcat as [-> | ->]; cbn [convert_body]; unfold bind;
      rewrite convert_transactions_entries, Hentries by exact Hne;
      now rewrite Hrun. }
  rewrite Hbody. cbn in Ht, Hb, Hd. cbn. rewrite Ht, Hb, Hd.
  split_and!; auto; discriminate.
Qed.

(** The payload whose second entry has a [null] amount: the first
    transaction is all the result can keep. *)
Lemma null_amount_fails_conversion_witness :
  let r := convert_to_driftmoney_format Reference.runtime 0
             second_amount_null BANK_STATEMENT in
  success r = false
  /\ error r <> None
  /\ (length (transactions r) <= 1)%nat
  /\ bills r = [] /\ debts r = [].
Proof.
  apply (null_amount_fails_conversion Reference.runtime 0 second_amount_null
           BANK_STATEMENT
           [PDict {[ "description" := PStr "Coffee"; "amount" := PInt 4 ]}]
           []
           (PDict {[ "description" := PStr "Rent"; "amount" := PNone ]})).
  - left; reflexivity.
  - vm_compute; reflexivity.
  - right. eexists. split; [reflexivity | vm_compute; reflexivity].
Defined.

Section DebtFacts.
Variable rt : Runtime.

(** A debt that is built has the fields it was given, validated. *)
Lemma new_Debt_fields id company balance lastUpdated isRecurring
    paymentDueDay paymentFrequency minimumPayment d :
  new_Debt rt id company balance lastUpdated isRecurring paymentDueDay
    paymentFrequency minimumPayment = Ok d ->
  Debt.id d = id /\ Debt.balance d = balance
  /\ Debt.lastUpdated d = lastUpdated
  /\ field_str rt company = Some (Debt.company d)
  /\ field_opt_str rt paymentFrequency = Some (Debt.paymentFrequency d).
Proof.
  unfold new_Debt.
  destruct (field_str rt company), (field_opt_int rt paymentDueDay),
    (field_opt_str rt paymentFrequency),
    (field_opt_float rt minimumPayment); try discriminate.
  now intros [= <-].
Qed.

(** The debt step on an object: what it appends was built from the
    object's fields, with the identifier and the day of the two calls it
    makes. *)
Lemma convert_debt_fields (d info : gmap string pyval) (company : string)
    (fixed : bool) (s s' : St) (o : outcome unit) (debt : Debt.t) :
  d !! "debt" = Some (PDict info) ->
  convert_debt rt (PDict d) company fixed s = (o, s') ->
  debts (result s') = debts (result s) ++ [debt] ->
  Debt.id debt = uuid4 rt (calls s)
  /\ Debt.lastUpdated debt = now_day rt (S (calls s))
  /\ field_str rt (default (PStr company) (info !! "company"))
     = Some (Debt.company debt)
  /\ field_opt_str rt
       (if fixed then PStr "monthly"
        else default (PStr "monthly") (info !! "paymentFrequency"))
     = Some (Debt.paymentFrequency debt).
Proof.
  intros Hdebt H Hdebts. unfold convert_debt in H.
  unfold bind at 1, lift at 1 in H. cbn [py_get] in H. rewrite Hdebt in H.
  destruct (truthy (PDict info)).
  - destruct fixed.
    all: unfold_steps H; cbn [py_get] in H; case_steps H.
    all: try discriminate.
    all: injection H as <- <-; cbn in Hdebts.
    all: try (apply (f_equal (@length _)) in Hdebts;
              rewrite length_app in Hdebts; simpl in Hdebts; lia).
    all: apply app_inv_head in Hdebts; injection Hdebts as ->.
    all: match goal with E : new_Debt _ _ _ _ _ _ _ _ _ = Ok _ |- _ =>
           apply new_Debt_fields in E as (? & _ & ? & ? & ?) end.
    all: split_and!; try assumption.
    all: repeat match goal with
                | E : Ok _ = Ok _ |- _ => injection E as <-
                end.
    all: unfold default; assumption.
  - injection H as <- <-.
    apply (f_equal (@length _)) in Hdebts.
    rewrite length_app in Hdebts. simpl in Hdebts. lia.
Qed.

End DebtFacts.

(** X20.  The payment frequency of a loan follows the payload, unlike
    that of a card statement: a missing "paymentFrequency" gives
    "monthly", a string is taken as it is, and an explicit [null] stays
    absent instead of taking the default.  The same holds for
    the company, with "Loan" as the default; the debt carries the first
    identifier and the first reading of the clock of the conversion. *)
Theorem loan_frequency_follows_payload (rt : Runtime) (n : nat)
    (d info : gmap string pyval) (debt : Debt.t) :
  d !! "debt" = Some (PDict info) ->
  debts (convert_to_driftmoney_format rt n (PDict d) LOAN) = [debt] ->
  (info !! "paymentFrequency" = None ->
   Debt.paymentFrequency debt = Some "monthly")
  /\ (info !! "paymentFrequency" = Some PNone ->
      Debt.paymentFrequency debt = None)
  /\ (forall f, info !! "paymentFrequency" = Some (PStr f) ->
        Debt.paymentFrequency debt = Some f)
  /\ (info !! "company" = None -> Debt.company debt = "Loan")
  /\ (forall c, info !! "company" = Some (PStr c) -> Debt.company debt = c)
  /\ Debt.id debt = uuid4 rt n
  /\ Debt.lastUpdated debt = now_day rt (S n).
Proof.
  intros Hdebt Hdebts. unfold convert_to_driftmoney_format in Hdebts.
  cbn [convert_body] in Hdebts.
  destruct (convert_debt rt (PDict d) "Loan" false (start n LOAN))
    as [o s] eqn:Hbody.
  assert (Hs : debts (result s) = debts (result (start n LOAN)) ++ [debt])
    by (destruct o; exact Hdebts).
  destruct (convert_debt_fields rt d info "Loan" false _ _ _ debt
              Hdebt Hbody Hs) as (Hid & Hday & Hc & Hf).
  split_and!; try assumption.
  - intros E. rewrite E in Hf. simpl in Hf. congruence.
  - intros E. rewrite E in Hf. simpl in Hf. congruence.
  - intros f E. rewrite E in Hf. simpl in Hf. congruence.
  - intros E. rewrite E in Hc. simpl in Hc. congruence.
  - intros c E. rewrite E in Hc. simpl in Hc. congruence.
Qed.

(** The debt block of the sample card statement, read as a loan: its
    "weekly" is kept. *)
Lemma loan_frequency_follows_payload_witness :
  exists debt,
    debts (convert_to_driftmoney_format Reference.runtime 0 card_statement LOAN)
    = [debt]
    /\ Debt.paymentFrequency debt = Some "weekly"
    /\ Debt.company debt = "Visa".
Proof.
  pose (info := ({[ "company" := PStr "Visa"; "balance" := PInt 250;
                    "paymentFrequency" := PStr "weekly" ]}
                 : gmap string pyval)).
  assert (Hd : card_statement_fields !! "debt" = Some (PDict info))
    by (vm_compute; reflexivity).
  destruct (debts (convert_to_driftmoney_format Reference.runtime 0
                     card_statement LOAN)) as [|debt [|debt' ds]] eqn:E;
    try (vm_compute in E; discriminate).
  exists debt. split; [reflexivity |].
  destruct (loan_frequency_follows_payload Reference.runtime 0
              card_statement_fields info debt Hd E)
    as (_ & _ & Hf & _ & Hc & _).
  split; [apply Hf | apply Hc]; vm_compute; reflexivity.
Defined.

(** ** The OCR service *)

Section OcrFacts.
Import Text Py OcrService.

Let sep : string := String nl EmptyString.

Lemma count_char_append (c : ascii) (a b : string) :
  count_char c (a +:+ b) = (count_char c a + count_char c b)%nat.
Proof. induction a as [|x a IH]; simpl; [reflexivity | rewrite IH; lia]. Qed.

(** A text without the separator is one piece. *)
Lemma split_one (s : string) : count_char nl s = O -> split nl s = [s].
Proof.
  induction s as [|c s IH]; [reflexivity |].
  simpl. destruct (Ascii.eqb c nl); [discriminate |].
  intros H. now rewrite (IH H).
Qed.

Lemma split_append (a b : string) :
  count_char nl a = O ->
  split nl (a +:+ String nl b) = a :: split nl b.
Proof.
  induction a as [|c a IH]; intros H.
  - simpl. reflexivity.
  - simpl in H |- *. destruct (Ascii.eqb c nl); [discriminate |].
    now rewrite (IH H).
Qed.

(** Joining lines that hold no line feed and splitting again gives the
    lines back. *)
Lemma split_join (ls : list string) :
  ls <> [] -> Forall (fun l => count_char nl l = O) ls ->
  split nl (join sep ls) = ls.
Proof.
  intros Hne Hall. induction Hall as [|l ls Hl Hls IH]; [contradiction |].
  destruct ls as [|l2 ls].
  - simpl. now apply split_one.
  - change (join sep (l :: l2 :: ls)) with (l +:+ String nl (join sep (l2 :: ls))).
    rewrite split_append by exact Hl. now rewrite IH.
Qed.

Lemma count_char_join_space (ws : list string) :
  Forall (fun w => count_char nl w = O) ws ->
  count_char nl (join " " ws) = O.
Proof.
  induction 1 as [|w ws Hw Hws IH]; [reflexivity |].
  destruct ws as [|w2 ws]; [exact Hw |].
  change (join " " (w :: w2 :: ws)) with (w +:+ " " +:+ join " " (w2 :: ws)).
  rewrite !count_char_append, Hw, IH. reflexivity.
Qed.

Lemma text_lines_lines_of (result : Document) :
  text_lines result = map line_text (lines_of result).
Proof.
  unfold text_lines, lines_of.
  induction (pages result) as [|page ps IH]; [reflexivity |].
  simpl. rewrite map_app, IH. f_equal.
  induction (blocks page) as [|block bs IHb]; [reflexivity |].
  simpl. now rewrite map_app, IHb.
Qed.

Lemma text_lines_clean (result : Document) :
  Forall (fun w => count_char nl (value w) = O) (words_of result) ->
  Forall (fun l => count_char nl l = O) (text_lines result).
Proof.
  rewrite text_lines_lines_of. unfold words_of.
  induction (lines_of result) as [|line ls IH]; intros H; [constructor |].
  simpl in H. apply Forall_app in H as [Hl Hrest].
  constructor; [| now apply IH].
  apply count_char_join_space. now apply Forall_map.
Qed.

End OcrFacts.

Import OcrService.

(** X8.  The text of a result whose words hold no line feed splits back
    into its lines, one per line of the result in reading order, so the
    text has as many lines as the result, and one (empty) line when the
    result has none.  The pages and blocks leave no trace: the text is
    that of the same lines on one page, in one block. *)
Theorem extract_text_round_trip (result : Document) :
  Forall (fun w => count_char nl (value w) = O) (words_of result) ->
  (lines_of result <> [] ->
   split nl (extract_text_from_result result)
   = map line_text (lines_of result))
  /\ (lines_of result = [] -> extract_text_from_result result = EmptyString)
  /\ length (split nl (extract_text_from_result result))
     = Nat.max 1 (length (lines_of result))
  /\ extract_text_from_result (flattened result)
     = extract_text_from_result result.
Proof.
  intros Hclean. apply text_lines_clean in Hclean.
  unfold extract_text_from_result.
  assert (Hflat : text_lines (flattened result) = text_lines result).
  { rewrite (text_lines_lines_of result). unfold text_lines, flattened. simpl.
    now rewrite !app_nil_r. }
  rewrite Hflat. rewrite text_lines_lines_of in *.
  destruct (lines_of result) as [|line ls] eqn:E.
  - split_and!; try reflexivity. contradiction.
  - split_and!; try reflexivity.
    + intros _. apply split_join; [discriminate | exact Hclean].
    + discriminate.
    + rewrite split_join by (discriminate || exact Hclean).
      rewrite length_map. simpl. lia.
Qed.

(** Two lines on two pages. *)
Lemma extract_text_round_trip_witness :
  let result :=
    {| pages :=
         [ {| blocks := [ {| lines := [ {| words := [ {| value := "Total" |};
                                                      {| value := "42.00" |} ] |} ] |} ] |};
           {| blocks := [ {| lines := [ {| words := [ {| value := "Thanks" |} ] |} ] |} ] |} ] |} in
  split nl (extract_text_from_result result) = ["Total 42.00"; "Thanks"].
Proof.
  cbv zeta.
  refine (proj1 (extract_text_round_trip _ _) _).
  - repeat constructor.
  - discriminate.
Defined.

(** X9.  What [ocr_extract] raises: the 400 of a suffix that is not one
    of the six, lower-cased; what creating the temporary directory or
    the cleanup raises, as it is; and the 500 that wraps every failure
    of the writing, the loading and the recognition.  What it returns
    carries the text of the result of the predictor with its length and
    its number of lines, at least one. *)
Theorem ocr_extract_outcomes (Doc : Type) (h : Host Doc) (file : Upload) :
  let file_ext := lower (suffix h (filename file)) in
  (allowed file_ext = false ->
   ocr_extract h file
   = Raise (HTTPException 400
              ("Unsupported file type: " +:+ file_ext +:+ ". Allowed: "
               +:+ allowed_text h)))
  /\ (forall e, ocr_extract h file = Raise e ->
        allowed file_ext = false
        \/ mkdtemp h file = Raise e
        \/ cleanup h file = Raise e
        \/ exists e0,
             process h file file_ext = Raise e0
             /\ e = HTTPException 500
                      ("OCR processing failed: " +:+ exn_text h e0))
  /\ (forall r, ocr_extract h file = Ok r ->
        allowed file_ext = true
        /\ exists doc result,
             predictor h doc = Ok result
             /\ text r = extract_text_from_result result
             /\ success r = true
             /\ extracted_filename r = filename file
             /\ char_count r = len (text r)
             /\ line_count r = 1 + Z.of_nat (count_char nl (text r))
             /\ 1 <= line_count r).
Proof.
  cbv zeta. unfold ocr_extract.
  destruct (allowed (lower (suffix h (filename file)))) eqn:Hext; simpl.
  - split_and!; [discriminate | |].
    + intros e. destruct (mkdtemp h file) as [d|e1]; [| intros [= <-]; auto].
      destruct (cleanup h file) as [[]|e2]; [| intros [= <-]; auto].
      destruct (process h file _) as [r|e0]; [discriminate |].
      intros [= <-]. do 3 right. eauto.
    + intros r. destruct (mkdtemp h file) as [d|e1]; [| discriminate].
      destruct (cleanup h file) as [[]|e2]; [| discriminate].
      unfold process.
      destruct (write_temp h file) as [[]|e0]; [| discriminate].
      destruct (if String.eqb _ ".pdf" then from_pdf h file else from_images h file)
        as [doc|e0]; [| discriminate].
      destruct (predictor h doc) as [result|e0] eqn:Hp; [| discriminate].
      intros [= <-]. split; [reflexivity |]. exists doc, result. cbn.
      rewrite split_length. split_and!; try reflexivity; try lia. exact Hp.
  - split_and!; [reflexivity | auto | discriminate].
Qed.

(** The loop appends one entry per file: the body of a file that was
    extracted, the failure of a file whose extraction raised an
    [HTTPException]. *)
Lemma batch_loop_entries (Doc : Type) (h : Host Doc) (files : list Upload) :
  forall acc results,
    batch_loop h files acc = Ok results ->
    exists added,
      results = acc ++ added
      /\ Forall2
           (fun file result =>
              match rewound_extract h file with
              | Ok r => result = Body r
              | Raise (HTTPException _ detail) =>
                  result = Failure (filename file) detail
              | Raise _ => False
              end) files added.
Proof.
  induction files as [|file rest IH]; intros acc results H.
  - injection H as <-. exists []. now rewrite app_nil_r.
  - cbn [batch_loop] in H.
    destruct (rewound_extract h file) as [r|e] eqn:Hfile.
    + destruct (IH _ _ H) as (added & -> & Hall).
      exists (Body r :: added). rewrite <- app_assoc. split; [reflexivity |].
      constructor; [now rewrite Hfile | exact Hall].
    + destruct e; try discriminate.
      destruct (IH _ _ H) as (added & -> & Hall).
      eexists (_ :: added). rewrite <- app_assoc. split; [reflexivity |].
      constructor; [now rewrite Hfile | exact Hall].
Qed.

(** The loop runs through when every extraction returns or raises an
    [HTTPException]. *)
Lemma batch_loop_runs (Doc : Type) (h : Host Doc) (files : list Upload) :
  Forall
    (fun file =>
       match rewound_extract h file with
       | Ok _ | Raise (HTTPException _ _) => True
       | Raise _ => False
       end) files ->
  forall acc, exists results, batch_loop h files acc = Ok results.
Proof.
  induction 1 as [|file rest Hfile Hrest IH]; intros acc; [now eexists |].
  cbn [batch_loop]. destruct (rewound_extract h file) as [r|[]];
    try contradiction; apply IH.
Qed.

(** X10.  [ocr_batch] returns only when no file was extracted: what it
    returns holds one failure per file, in the order of the files, each
    with the name of its file and the detail of the [HTTPException] its
    extraction raised.  As soon as a file is extracted and no extraction
    raises anything but an [HTTPException], the response cannot be
    rendered, for the bodies in it are bytes, and the batch raises a
    [TypeError]. *)
Theorem ocr_batch_returns_failures_only (Doc : Type) (h : Host Doc)
    (files : list Upload) :
  (forall results, ocr_batch h files = Ok results ->
     Forall2
       (fun file result =>
          exists status_code detail,
            rewound_extract h file = Raise (HTTPException status_code detail)
            /\ result = Failure (filename file) detail)
       files results)
  /\ (Forall
        (fun file =>
           match rewound_extract h file with
           | Ok _ | Raise (HTTPException _ _) => True
           | Raise _ => False
           end) files ->
      Exists
        (fun file => exists r, rewound_extract h file = Ok r) files ->
      ocr_batch h files = Raise TypeError).
Proof.
  split.
  - intros results H. unfold ocr_batch in H.
    destruct (batch_loop h files []) as [rs|e] eqn:Hb; [| discriminate].
    unfold render_results in H.
    destruct (existsb is_body rs) eqn:Hbody; [discriminate |].
    injection H as <-.
    destruct (batch_loop_entries Doc h files _ _ Hb) as (added & -> & Hall).
    simpl in *. clear Hb.
    induction Hall as [|file result rest added Hfile Hall IH]; [constructor |].
    simpl in Hbody. apply orb_false_iff in Hbody as [Hhead Hbody].
    constructor; [| now apply IH].
    destruct (rewound_extract h file) as [r|[]]; try contradiction;
      subst result; [discriminate | eauto].
  - intros Hcaught Hsome. unfold ocr_batch.
    destruct (batch_loop_runs Doc h files Hcaught []) as (results & Hb).
    rewrite Hb.
    destruct (batch_loop_entries Doc h files _ _ Hb) as (added & -> & Hall).
    simpl. unfold render_results.
    assert (Hbody : existsb is_body added = true).
    { clear Hb Hcaught. induction Hall as [|file result rest added Hfile Hall IH].
      - inversion Hsome.
      - simpl. apply Exists_cons in Hsome as [(r & Hr) | Hsome].
        + rewrite Hr in Hfile. now subst result.
        + rewrite (IH Hsome). apply orb_true_r. }
    now rewrite Hbody.
Qed.

(** A batch of refused files comes back as failures; a batch with a file
    that is extracted raises. *)
Example ocr_batch_examples :
  ocr_batch host [ {| filename := "notes.txt"; content := "a" |};
                   {| filename := "README"; content := "b" |} ]
  = Ok [ Failure "notes.txt"
           "Unsupported file type: .txt. Allowed: {'.pdf', '.png', '.jpg', '.jpeg', '.tiff', '.bmp'}";
         Failure "README"
           "Unsupported file type: . Allowed: {'.pdf', '.png', '.jpg', '.jpeg', '.tiff', '.bmp'}" ]
  /\ ocr_batch host [ {| filename := "notes.txt"; content := "a" |};
                      {| filename := "scan.PDF"; content := "Total 42" |} ]
     = Raise TypeError.
Proof. split; vm_compute; reflexivity. Qed.

(** ** More on the truncation and the classifier *)

Section MoreTruncatorFacts.
Import Text Truncator.

(** The pieces of a split hold no separator. *)
Lemma split_clean (s : string) :
  Forall (fun l => count_char nl l = O) (split nl s).
Proof.
  induction s as [|c s IH]; simpl; [repeat constructor |].
  destruct (Ascii.eqb c nl) eqn:Hc; [constructor; [reflexivity | exact IH] |].
  destruct (split nl s) as [|l ls]; [repeat constructor; simpl; now rewrite Hc |].
  inversion IH as [|? ? Hl Hls]; subst.
  constructor; [simpl; now rewrite Hc | exact Hls].
Qed.

Lemma split_unlines (kept : list string) (rest : string) :
  Forall (fun l => count_char nl l = O) kept ->
  split nl (unlines kept +:+ rest) = kept ++ split nl rest.
Proof.
  induction 1 as [|l ls Hl Hls IH]; [reflexivity |].
  cbn [unlines]. rewrite append_assoc.
  change (String nl (unlines ls) +:+ rest) with (String nl (unlines ls +:+ rest)).
  rewrite split_append by exact Hl. now rewrite IH.
Qed.

(** What the function returns for a text over the budget, with the line
    at which the loop stops. *)
Lemma truncate_cut (text : string) (max_chars : Z) :
  max_chars < len text ->
  exists kept l rest,
    split nl text = kept ++ l :: rest
    /\ truncate_text_for_context text max_chars = unlines kept +:+ sentinel
    /\ (kept <> [] -> len (unlines kept) <= max_chars)
    /\ len (unlines kept) + len l + 1 > max_chars.
Proof.
  intros Hover. unfold truncate_text_for_context.
  destruct (len text <=? max_chars) eqn:Hle; [lia |].
  destruct (truncate_loop_spec max_chars (split nl text) [] 0 eq_refl)
    as [[_ Hall] | (kept & l & rest & Hsplit & Heq & Hkept & Hstop)].
  - exfalso. specialize (Hall (split_not_nil text)). simpl in Hall.
    rewrite unlines_join, join_split, len_append in Hall
      by apply split_not_nil.
    unfold len in Hall at 2; simpl in Hall. lia.
  - exists kept, l, rest. simpl in Heq, Hkept, Hstop. rewrite Heq.
    split_and!; auto. rewrite join_app by discriminate. reflexivity.
Qed.

End MoreTruncatorFacts.

Import Text Classifier Truncator.

(** X11.  The output is never longer than the 47 characters of the marker
    over the shorter of the text and the budget; a text over the budget
    always comes back with the marker at its end. *)
Theorem truncate_output_length (text : string) (max_chars : Z) :
  len (truncate_text_for_context text max_chars)
  <= Z.min (len text) (Z.max max_chars 0) + 47
  /\ (len text <= max_chars ->
      len (truncate_text_for_context text max_chars) = len text)
  /\ (max_chars < len text ->
      47 <= len (truncate_text_for_context text max_chars)
      /\ exists content,
           truncate_text_for_context text max_chars = content +:+ sentinel).
Proof.
  pose proof (len_nonneg text) as Hpos.
  assert (Hfits : len text <= max_chars ->
                  truncate_text_for_context text max_chars = text).
  { intros Hle. unfold truncate_text_for_context.
    destruct (len text <=? max_chars) eqn:E; [reflexivity | lia]. }
  assert (Hcut : max_chars < len text ->
            exists content,
              truncate_text_for_context text max_chars = content +:+ sentinel
              /\ len content <= len text
              /\ len content <= Z.max max_chars 0).
  { intros Hover.
    destruct (truncate_over_budget text max_chars Hover)
      as (kept & l & rest & _ & Heq & Htext & Hkept).
    exists (unlines kept). split; [exact Heq |]. split.
    - pose proof (f_equal len Htext) as Hlen. rewrite len_append in Hlen.
      pose proof (len_nonneg (join (String nl EmptyString) (l :: rest))). lia.
    - destruct kept as [|k kept]; [unfold len; simpl; lia |].
      specialize (Hkept ltac:(discriminate)). lia. }
  split_and!.
  - destruct (Z_le_gt_dec (len text) max_chars) as [Hle | Hgt].
    + rewrite (Hfits Hle). lia.
    + destruct Hcut as (content & -> & H1 & H2); [lia |].
      rewrite len_append. change (len sentinel) with 47. lia.
  - intros Hle. now rewrite Hfits.
  - intros Hover. destruct (Hcut Hover) as (content & Heq & _).
    split; [| now exists content].
    rewrite Heq, len_append. change (len sentinel) with 47.
    pose proof (len_nonneg content). lia.
Qed.

(** X12.  Of a text over the budget the output keeps whole lines: its
    lines are the first lines of the text, as many as fit with their line
    feeds, then an empty line and the marker line.  The first line left
    out is the first that does not fit; no later line is taken, however
    short. *)
Theorem truncate_keeps_whole_lines (text : string) (max_chars : Z) :
  max_chars < len text ->
  exists kept first_out rest,
    split nl text = kept ++ first_out :: rest
    /\ split nl (truncate_text_for_context text max_chars)
       = kept ++ [EmptyString; marker_line]
    /\ (kept <> [] -> len (unlines kept) <= max_chars)
    /\ len (unlines kept) + len first_out + 1 > max_chars.
Proof.
  intros Hover.
  destruct (truncate_cut text max_chars Hover)
    as (kept & l & rest & Hsplit & Heq & Hkept & Hstop).
  exists kept, l, rest. split_and!; auto.
  rewrite Heq, split_unlines; [reflexivity |].
  pose proof (split_clean text) as Hc. rewrite Hsplit in Hc.
  now apply Forall_app in Hc as [Hc _].
Qed.

(** The transcript of ten lines under a budget of 100: four lines are
    kept. *)
Lemma truncate_keeps_whole_lines_witness :
  exists kept first_out rest,
    split nl ten_lines = kept ++ first_out :: rest
    /\ split nl (truncate_text_for_context ten_lines 100)
       = kept ++ [EmptyString; marker_line]
    /\ (kept <> [] -> len (unlines kept) <= 100)
    /\ len (unlines kept) + len first_out + 1 > 100.
Proof. apply (truncate_keeps_whole_lines ten_lines 100). reflexivity. Defined.

Section MoreClassifierFacts.



(** A term that occurs in a transcript occurs in every text around it. *)
Lemma indicated_around (terms : list string) (pre text post : string) :
  indicated terms text -> indicated terms (pre +:+ text +:+ post).
Proof.
  intros (term & Hin & Hocc). exists term. split; [exact Hin |].
  apply occurs_trans with (b := lower text); [exact Hocc |].
  rewrite !lower_append. now exists (lower pre), (lower post).
Qed.

End MoreClassifierFacts.


(** X14.  Text added before or after a transcript never moves it down in
    the order credit card, loan, bill, bank statement; in particular a
    transcript classified as a credit card stays one. *)
Theorem detect_never_lowered (pre text post : string) :
  (priority (detect_document_type text)
   <= priority (detect_document_type (pre +:+ text +:+ post)))%nat
  /\ (detect_document_type text = CREDIT_CARD ->
      detect_document_type (pre +:+ text +:+ post) = CREDIT_CARD).
Proof.
  assert (Hup : forall terms,
            any_in terms (lower text) = true ->
            any_in terms (lower (pre +:+ text +:+ post)) = true).
  { intros terms H. apply any_in_indicated. apply indicated_around.
    now apply any_in_indicated. }
  unfold detect_document_type; cbv zeta.
  pose proof (Hup credit_card_terms) as Hc.
  pose proof (Hup loan_terms) as Hl.
  pose proof (Hup bill_terms) as Hb.
  destruct (any_in credit_card_terms (lower text)).
  - rewrite (Hc eq_refl). split; [simpl; lia | reflexivity].
  - split;
      [| destruct (any_in loan_terms (lower text)),
           (any_in bill_terms (lower text)); discriminate].
    destruct (any_in credit_card_terms (lower (pre +:+ text +:+ post)));
      [destruct (any_in loan_terms (lower text)),
         (any_in bill_terms (lower text)); simpl; lia |].
    destruct (any_in loan_terms (lower text)).
    + rewrite (Hl eq_refl). simpl; lia.
    + destruct (any_in loan_terms (lower (pre +:+ text +:+ post)));
        [destruct (any_in bill_terms (lower text)); simpl; lia |].
      destruct (any_in bill_terms (lower text)).
      * rewrite (Hb eq_refl). simpl; lia.
      * simpl; lia.
Qed.
